(** * Universal Scanner: the project model, its persistence and the
      quantities formatter of [universalscanner.py]

    The development embeds the event handlers of [UniversalScannerApp] as
    functions over an explicit application state and an explicit file
    system, and proves the properties of the specification about them.

    Modelling conventions.
    - A Python [str] is a Rocq [string]; its characters are the 8-bit
      [ascii] characters, read as the code points U+0000 to U+00FF.
    - [bytes] are [list byte].
    - Python objects that are shared ([BranchData], [ImageData]) live in
      one place, the list [branches] of the application; every other
      reference to them ([current_branch], the values of [node_data]) is an
      index into that list.
    - Dialogs are inputs of the handlers, message boxes are their outputs.
    - Paths follow [posixpath]; the file system is a finite map from paths
      to contents, with the failures of the operating system as data.
    - The handlers of the quantities tab take the content of the
      quantities box and give it back; they read and write text files
      through the codec of [TextFiles]. A click appends a line to the
      prompt box, which is one way of typing into it. *)

From Stdlib Require Import String Ascii List Arith Lia Bool.
From Stdlib.Strings Require Import Byte.
From Stdlib Require Import DecimalString.
From stdpp Require Import base option list gmap strings.

Local Open Scope string_scope.
Local Open Scope list_scope.
Local Open Scope nat_scope.

#[local] Arguments String.append !_ _ / : simpl nomatch.

(** ** Python string methods *)

Module PyStr.

(** [str.isspace] on one character, for the code points below 256:
    TAB, LF, VT, FF, CR, FS, GS, RS, US, SPACE, NEL and NBSP. *)
Definition is_space (c : ascii) : bool :=
  let n := nat_of_ascii c in
  ((9 <=? n) && (n <=? 13)) || ((28 <=? n) && (n <=? 32))
  || (n =? 133) || (n =? 160).

(** The line boundaries of [str.splitlines] below 256:
    LF, VT, FF, CR, FS, GS, RS and NEL. *)
Definition is_linebreak (c : ascii) : bool :=
  let n := nat_of_ascii c in
  ((10 <=? n) && (n <=? 13)) || ((28 <=? n) && (n <=? 30)) || (n =? 133).

Definition LF : ascii := "010"%char.
Definition CR : ascii := "013"%char.
Definition comma : ascii := ","%char.
Definition space : ascii := " "%char.

Definition is_empty (s : string) : bool :=
  match s with EmptyString => true | String _ _ => false end.

(** [s.lstrip(chars)] and [s.rstrip(chars)], the set of characters given by
    a predicate. *)
Fixpoint lstrip_by (p : ascii -> bool) (s : string) : string :=
  match s with
  | EmptyString => EmptyString
  | String c r => if p c then lstrip_by p r else s
  end.

Fixpoint rstrip_by (p : ascii -> bool) (s : string) : string :=
  match s with
  | EmptyString => EmptyString
  | String c r =>
      let r' := rstrip_by p r in
      if p c && is_empty r' then EmptyString else String c r'
  end.

(** [s.strip()] *)
Definition strip (s : string) : string := lstrip_by is_space (rstrip_by is_space s).

(** [s.rstrip("\n")] *)
Definition rstrip_nl (s : string) : string := rstrip_by (Ascii.eqb LF) s.

(** [s.splitlines()]: a line ends at a line boundary, CR LF counts as one
    boundary, and a final boundary opens no further line. *)
Fixpoint splitlines (s : string) : list string :=
  match s with
  | EmptyString => []
  | String c r =>
      if is_linebreak c then
        EmptyString ::
          match r with
          | String d r' =>
              if Ascii.eqb c CR && Ascii.eqb d LF then splitlines r'
              else splitlines r
          | EmptyString => []
          end
      else
        match splitlines r with
        | [] => [String c EmptyString]
        | l :: ls => String c l :: ls
        end
  end.

(** [s.split(sep)] for a one-character separator: always at least one
    piece. *)
Fixpoint split_on (sep : ascii) (s : string) : list string :=
  match s with
  | EmptyString => [EmptyString]
  | String c r =>
      if Ascii.eqb c sep then EmptyString :: split_on sep r
      else
        match split_on sep r with
        | [] => [String c EmptyString]
        | f :: fs => String c f :: fs
        end
  end.

Fixpoint spaces (n : nat) : string :=
  match n with
  | O => EmptyString
  | S k => String space (spaces k)
  end.

(** [s.ljust(width)]: pads on the right, never truncates. *)
Definition ljust (width : nat) (s : string) : string :=
  s +:+ spaces (width - String.length s).

(** [sep.join(parts)] *)
Fixpoint join (sep : string) (parts : list string) : string :=
  match parts with
  | [] => EmptyString
  | [p] => p
  | p :: ps => p +:+ sep +:+ join sep ps
  end.

(** [all(p(c) for c in s)] *)
Fixpoint all_chars (p : ascii -> bool) (s : string) : bool :=
  match s with
  | EmptyString => true
  | String c r => p c && all_chars p r
  end.

(** No line boundary in [s]. *)
Definition no_break (s : string) : bool := all_chars (fun c => negb (is_linebreak c)) s.

End PyStr.

(** ** The quantities formatter *)

Module Formatter.
Import PyStr.

Definition NL : string := String LF EmptyString.

(** [if ln.strip()] *)
Definition nonblank (ln : string) : bool := negb (is_empty (strip ln)).

(** [[f.strip() for f in ln.split(",") if f.strip() != ""]] *)
Definition fields (ln : string) : list string :=
  map strip (filter (fun f => negb (String.eqb (strip f) "")) (split_on comma ln)).

(** ["".join(f.ljust(15) for f in fields)] *)
Definition format_line (ln : string) : string :=
  join "" (map (ljust 15) (fields ln)).

Definition kept_lines (content : string) : list string :=
  filter (fun ln => nonblank ln) (splitlines content).

(** [UniversalScannerApp._format_csv_like_text] *)
Definition _format_csv_like_text (content : string) : string :=
  let lines := kept_lines content in
  let out_lines := map format_line lines in
  join NL out_lines +:+ (match out_lines with [] => "" | _ :: _ => NL end).

(** The width of an output line: each field takes 15 columns, or its own
    length when it is longer. *)
Definition line_width (fs : list string) : nat :=
  list_sum (map (fun f => Nat.max 15 (String.length f)) fs).

End Formatter.

(** ** [os.path] (POSIX flavour) *)

Module OsPath.
Import PyStr.

Definition sep : ascii := "/"%char.

Definition startswith_sep (p : string) : bool :=
  match p with String c _ => Ascii.eqb c sep | EmptyString => false end.

Fixpoint endswith_sep (p : string) : bool :=
  match p with
  | EmptyString => false
  | String c EmptyString => Ascii.eqb c sep
  | String _ r => endswith_sep r
  end.

(** [os.path.join(a, b)] *)
Definition join2 (a b : string) : string :=
  if startswith_sep b then b
  else if is_empty a || endswith_sep a then a +:+ b
  else a +:+ String sep b.

(** [os.path.join(a, *p)] *)
Definition join (a : string) (p : list string) : string := fold_left join2 p a.

(** [(p[:i], p[i:])] for [i = p.rfind("/") + 1] *)
Fixpoint rsplit_sep (p : string) : string * string :=
  match p with
  | EmptyString => (EmptyString, EmptyString)
  | String c r =>
      let '(h, t) := rsplit_sep r in
      if is_empty h then
        if Ascii.eqb c sep then (String c EmptyString, r) else (EmptyString, String c r)
      else (String c h, t)
  end.

(** [os.path.basename(p)] *)
Definition basename (p : string) : string := snd (rsplit_sep p).

(** [os.path.dirname(p)]: the head, without its trailing separators unless
    it consists of separators only. *)
Definition dirname (p : string) : string :=
  let head := fst (rsplit_sep p) in
  if is_empty (lstrip_by (Ascii.eqb sep) head) then head
  else rstrip_by (Ascii.eqb sep) head.

(** No separator in [s]. *)
Definition no_sep (s : string) : bool := all_chars (fun c => negb (Ascii.eqb c sep)) s.

End OsPath.

(** ** The file system

    A flat name space: regular files with their contents, directories, and
    two sets of paths on which opening for reading, respectively creating
    or overwriting, fails (permissions, a full disk, a vanished medium).
    Paths are compared as written. *)

Module Fs.

Record FileSystem := mkFs {
  files : gmap string (list byte);
  dirs : gset string;
  unreadable : gset string;
  unwritable : gset string
}.

(** [os.path.exists(p)] *)
Definition exists_ (fs : FileSystem) (p : string) : bool :=
  bool_decide (is_Some (files fs !! p) \/ p ∈ dirs fs).

(** [open(p, "rb").read()]; [None] when it raises *)
Definition read_bytes (fs : FileSystem) (p : string) : option (list byte) :=
  if decide (p ∈ unreadable fs) then None else files fs !! p.

(** Whether a file can be created or overwritten at [p] *)
Definition writable (fs : FileSystem) (p : string) : bool :=
  bool_decide ((p ∉ unwritable fs) /\ (p ∉ dirs fs)).

(** [open(p, "w")] followed by writing [data]; [None] when it raises *)
Definition write_bytes (fs : FileSystem) (p : string) (data : list byte)
  : option FileSystem :=
  if writable fs p
  then Some (mkFs (<[p := data]> (files fs)) (dirs fs) (unreadable fs) (unwritable fs))
  else None.

(** [shutil.copy2(src, dst)]: raises on identical paths ([SameFileError]),
    on a source that cannot be read and on a destination that cannot be
    written. *)
Definition copy2 (fs : FileSystem) (src dst : string) : option FileSystem :=
  if decide (src = dst) then None
  else match read_bytes fs src with
       | None => None
       | Some data => write_bytes fs dst data
       end.

(** [os.makedirs(p, exist_ok=True)]; [None] when it raises *)
Definition makedirs (fs : FileSystem) (p : string) : option FileSystem :=
  if decide (p ∈ dirs fs) then Some fs
  else if decide (is_Some (files fs !! p) \/ p ∈ unwritable fs) then None
  else Some (mkFs (files fs) ({[p]} ∪ dirs fs) (unreadable fs) (unwritable fs)).

End Fs.

(** ** JSON values and the platform the program runs on *)

#[local] Set Warnings "-register-all".

Inductive json :=
| JNull
| JBool (b : bool)
| JNum (n : Z)   (* a number; the program never looks at one *)
| JStr (s : string)
| JArr (l : list json)
| JObj (m : list (string * json)).

(** [d.get(key)] on the dict of a JSON object, given by its members in the
    order of the document: a later member replaces an earlier one of the
    same key. *)
Fixpoint dict_get (m : list (string * json)) (key : string) : option json :=
  match m with
  | [] => None
  | (k, v) :: r =>
      match dict_get r key with
      | Some later => Some later
      | None => if String.eqb k key then Some v else None
      end
  end.

(** What the program takes from its environment: the home directory, the
    presence of Pillow, the image decoder, and the [json] module writing to
    and reading from a file ([json_load] is [None] when decoding the file
    or parsing it raises). *)
Class Platform := {
  home : string;
  PIL_AVAILABLE : bool;
  image_decodes : list byte -> bool;
  json_dump : json -> list byte;
  json_load : list byte -> option json
}.

(** ** The application state *)

Module Model.
Import PyStr.

(** A [PhotoImage]: the bytes it was decoded from and the bounding box it
    was scaled to (none on the Tk fallback, which does not scale). *)
Record PhotoImage := mkPhoto {
  photo_source : list byte;
  photo_box : option (nat * nat)
}.

Record ImageData := mkImage {
  original_path : string;
  image_bytes : list byte;
  tk_image : option PhotoImage
}.

Record BranchData := mkBranch {
  name : string;
  prompt : string;
  image_paths : list string;
  images : list ImageData
}.

(** The value of a [node_data] entry: a reference to a branch, or to an
    image of a branch. *)
Inductive NodeRef :=
| BranchRef (b : nat)
| ImageRef (b i : nat).

Inductive ItemText :=
| BranchLabel (branch_name : string)
| ImageLabel (image_counter : nat).

Record TreeItem := mkItem {
  item_parent : option nat;
  item_text : ItemText;
  item_image : option PhotoImage;
  item_open : bool
}.

(** The [ttk.Treeview]: its items by identifier, the selection, the focus
    and the serial number of the next item. *)
Record Treeview := mkTree {
  tv_items : gmap nat TreeItem;
  tv_selection : list nat;
  tv_focus : option nat;
  tv_serial : nat
}.

(** A [tk.Text] is its content, without the newline that [get("1.0", "end")]
    appends. *)
Record App := mkApp {
  branches : list BranchData;
  node_data : gmap nat NodeRef;
  current_branch : option nat;
  image_refs : list PhotoImage;
  tree : Treeview;
  story_text : string;
  prompt_text : string;
  image_preview : option PhotoImage;
  project_name_var : string
}.

(** The message boxes, and [Uncaught] for an exception that leaves the
    handler (Tk reports it and goes on); [OutsideModel] marks a manifest
    value of another JSON type than the one the program expects, which
    Python either raises on or hands over to Tk. *)
Inductive message :=
| UploadSelectBranch
| ImageLimit
| ImageReadError (fname : string)
| ImageError
| SaveErrorExists
| ImageCopyError (path : string)
| SaveErrorManifest
| SaveSuccessful (project_path : string)
| LoadError
| Uncaught
| OutsideModel.

(** *** Field updates *)

Definition set_prompt (text : string) (b : BranchData) : BranchData :=
  mkBranch (name b) text (image_paths b) (images b).

Definition set_image_paths (l : list string) (b : BranchData) : BranchData :=
  mkBranch (name b) (prompt b) l (images b).

Definition append_image (img : ImageData) (b : BranchData) : BranchData :=
  mkBranch (name b) (prompt b) (image_paths b) (images b ++ [img]).

Definition add_images (imgs : list ImageData) (b : BranchData) : BranchData :=
  mkBranch (name b) (prompt b) (image_paths b) (images b ++ imgs).

Definition with_branches (l : list BranchData) (a : App) : App :=
  mkApp l (node_data a) (current_branch a) (image_refs a) (tree a)
        (story_text a) (prompt_text a) (image_preview a) (project_name_var a).

Definition with_node_data (m : gmap nat NodeRef) (a : App) : App :=
  mkApp (branches a) m (current_branch a) (image_refs a) (tree a)
        (story_text a) (prompt_text a) (image_preview a) (project_name_var a).

Definition with_current_branch (c : option nat) (a : App) : App :=
  mkApp (branches a) (node_data a) c (image_refs a) (tree a)
        (story_text a) (prompt_text a) (image_preview a) (project_name_var a).

Definition with_image_refs (l : list PhotoImage) (a : App) : App :=
  mkApp (branches a) (node_data a) (current_branch a) l (tree a)
        (story_text a) (prompt_text a) (image_preview a) (project_name_var a).

Definition with_tree (t : Treeview) (a : App) : App :=
  mkApp (branches a) (node_data a) (current_branch a) (image_refs a) t
        (story_text a) (prompt_text a) (image_preview a) (project_name_var a).

Definition with_story_text (s : string) (a : App) : App :=
  mkApp (branches a) (node_data a) (current_branch a) (image_refs a) (tree a)
        s (prompt_text a) (image_preview a) (project_name_var a).

Definition with_prompt_text (s : string) (a : App) : App :=
  mkApp (branches a) (node_data a) (current_branch a) (image_refs a) (tree a)
        (story_text a) s (image_preview a) (project_name_var a).

Definition with_image_preview (p : option PhotoImage) (a : App) : App :=
  mkApp (branches a) (node_data a) (current_branch a) (image_refs a) (tree a)
        (story_text a) (prompt_text a) p (project_name_var a).

Definition with_project_name_var (s : string) (a : App) : App :=
  mkApp (branches a) (node_data a) (current_branch a) (image_refs a) (tree a)
        (story_text a) (prompt_text a) (image_preview a) s.

(** The state [__init__] builds. *)
Definition init : App :=
  mkApp [] ∅ None [] (mkTree ∅ [] None 0) "" "" None "".

(** *** The widgets *)

(** [text.get("1.0", "end")] *)
Definition text_get (content : string) : string := content +:+ String LF EmptyString.

(** [tree.insert(parent, "end", text=..., image=...)]: the new item's
    identifier and the tree. *)
Definition tree_insert (parent : option nat) (text : ItemText)
    (image : option PhotoImage) (t : Treeview) : nat * Treeview :=
  let id := tv_serial t in
  (id, mkTree (<[id := mkItem parent text image false]> (tv_items t))
              (tv_selection t) (tv_focus t) (S id)).

(** [tree.parent(item)]; the root ([""]) is [None] *)
Definition tree_parent (t : Treeview) (item : nat) : option nat :=
  match tv_items t !! item with
  | Some it => item_parent it
  | None => None
  end.

(** [tree.item(item, open=True)] *)
Definition tree_open (item : nat) (t : Treeview) : Treeview :=
  mkTree (alter (fun it => mkItem (item_parent it) (item_text it) (item_image it) true)
                item (tv_items t))
         (tv_selection t) (tv_focus t) (tv_serial t).

(** [tree.delete( *tree.get_children())] *)
Definition tree_delete_all (t : Treeview) : Treeview :=
  mkTree ∅ [] None (tv_serial t).

(** [tree.selection_set(item)] then [tree.focus(item)] *)
Definition tree_select (item : nat) (t : Treeview) : Treeview :=
  mkTree (tv_items t) [item] (Some item) (tv_serial t).

End Model.

(** ** The event handlers of [UniversalScannerApp] *)

Module Handlers.
Import PyStr Fs Model.

Section WithPlatform.
Context `{P : Platform}.

(** [self.random_prompts] *)
Definition random_prompts : list string :=
  [ "A futuristic city skyline at sunset";
    "An enchanted forest with glowing mushrooms and mythical creatures";
    "A steampunk-inspired mechanical dragon in a Victorian-era workshop";
    "A tranquil beach with crystal clear water and a lone palm tree";
    "A portrait of a wise old wizard with a long white beard, holding a crystal ball";
    "A bustling medieval marketplace with vendors, shoppers, and street performers";
    "A surreal landscape with floating islands and waterfalls that flow upwards" ].

(** [random.choice(seq)], the generator's draw given from outside *)
Definition choice (draw : nat) (seq : list string) : string :=
  nth (draw mod length seq) seq "".

Definition set_current_branch (branch : option nat) (a : App) : App :=
  with_current_branch branch a.

(** [prompt_text.delete("1.0", "end"); prompt_text.insert("1.0", branch.prompt or "")] *)
Definition update_prompt_text_from_branch (branch : nat) (a : App) : App :=
  match branches a !! branch with
  | Some b => with_prompt_text (prompt b) a
  | None => a
  end.

Definition _get_selected_item (a : App) : option nat := head (tv_selection (tree a)).

(** The loop of [_get_branch_item_for]: climb while there is a parent. *)
Fixpoint climb (fuel : nat) (t : Treeview) (item_id : nat) : nat :=
  match fuel with
  | O => item_id
  | S k =>
      match tree_parent t item_id with
      | Some parent => climb k t parent
      | None => item_id
      end
  end.

Definition _get_branch_item_for (t : Treeview) (item_id : nat) : nat :=
  climb (size (tv_items t)) t item_id.

Definition _create_thumbnail (image_bytes : list byte) (size : nat * nat)
  : option PhotoImage :=
  if image_decodes image_bytes
  then Some (mkPhoto image_bytes (if PIL_AVAILABLE then Some size else None))
  else None.

Definition _show_image_preview (image_bytes : list byte) (a : App)
  : App * list message :=
  if PIL_AVAILABLE then
    if image_decodes image_bytes
    then (with_image_preview (Some (mkPhoto image_bytes (Some (400, 300)))) a, [])
    else (a, [ImageError])
  else
    match _create_thumbnail image_bytes (400, 300) with
    | Some img => (with_image_preview (Some img) a, [])
    | None => (a, [])
    end.

(** [self.prompt_text.get("1.0", "end").rstrip("\n")] *)
Definition edited_prompt (a : App) : string := rstrip_nl (text_get (prompt_text a)).

(** [self.current_branch.prompt = self.prompt_text.get("1.0", "end").rstrip("\n")]
    under [if self.current_branch is not None] *)
Definition persist_current_prompt (a : App) : App :=
  match current_branch a with
  | Some cur => with_branches (alter (set_prompt (edited_prompt a)) cur (branches a)) a
  | None => a
  end.

(** [add_branch]; [answer] is what [simpledialog.askstring] returns. *)
Definition add_branch (answer : option string) (draw : nat) (a : App) : App :=
  match answer with
  | None => a
  | Some branch_name =>
      if is_empty branch_name then a
      else
        let prompt := choice draw random_prompts in
        let branch := mkBranch branch_name prompt [] [] in
        let idx := length (branches a) in
        let a1 := with_branches (branches a ++ [branch]) a in
        let '(item_id, t1) := tree_insert None (BranchLabel branch_name) None (tree a1) in
        let a2 := with_node_data (<[item_id := BranchRef idx]> (node_data a1))
                                 (with_tree t1 a1) in
        let a3 := with_tree (tree_select item_id (tree a2)) a2 in
        update_prompt_text_from_branch idx (set_current_branch (Some idx) a3)
  end.

(** One more image on a branch: the [ImageData], its thumbnail, its tree
    item and its [node_data] entry (shared by upload and load). *)
Definition attach_image (branch_item branch : nat) (path : string)
    (img_bytes : list byte) (image_counter : nat) (a : App) : App :=
  let thumb := _create_thumbnail img_bytes (24, 24) in
  let img_data := mkImage path img_bytes thumb in
  let pos := match branches a !! branch with
             | Some b => length (images b)
             | None => 0
             end in
  let a1 := with_branches (alter (append_image img_data) branch (branches a)) a in
  let a2 := match thumb with
            | Some th => with_image_refs (image_refs a1 ++ [th]) a1
            | None => a1
            end in
  let '(image_item, t1) :=
    tree_insert (Some branch_item) (ImageLabel image_counter) thumb (tree a2) in
  with_node_data (<[image_item := ImageRef branch pos]> (node_data a2)) (with_tree t1 a2).

(** The [for fname in filenames] loop of [upload_images] *)
Fixpoint upload_loop (fs : FileSystem) (branch_item branch : nat)
    (filenames : list string) (image_counter : nat) (a : App) : App * list message :=
  match filenames with
  | [] => (a, [])
  | fname :: rest =>
      match read_bytes fs fname with
      | None =>
          let '(a', ms) := upload_loop fs branch_item branch rest image_counter a in
          (a', ImageReadError fname :: ms)
      | Some img_bytes =>
          upload_loop fs branch_item branch rest (S image_counter)
            (attach_image branch_item branch fname img_bytes image_counter a)
      end
  end.

(** The branch a selected item belongs to: [node_data.get(branch_item)]
    when it is a [BranchData]. *)
Definition branch_of_item (a : App) (item : nat) : option (nat * BranchData) :=
  match node_data a !! item with
  | Some (BranchRef bi) =>
      match branches a !! bi with
      | Some b => Some (bi, b)
      | None => None
      end
  | _ => None
  end.

(** [upload_images]; [filenames] is what [filedialog.askopenfilenames]
    returns. *)
Definition upload_images (filenames : list string) (fs : FileSystem) (a : App)
  : App * list message :=
  match _get_selected_item a with
  | None => (a, [UploadSelectBranch])
  | Some selected =>
      let branch_item := _get_branch_item_for (tree a) selected in
      match branch_of_item a branch_item with
      | None => (a, [UploadSelectBranch])
      | Some (bi, branch_data) =>
          let existing_images_count := length (images branch_data) in
          match filenames with
          | [] => (a, [])
          | _ :: _ =>
              if 2 <? existing_images_count + length filenames then (a, [ImageLimit])
              else
                let '(a1, ms) :=
                  upload_loop fs branch_item bi filenames (existing_images_count + 1) a in
                (with_tree (tree_open branch_item (tree a1)) a1, ms)
          end
      end
  end.

(** [on_tree_select] *)
Definition on_tree_select (a : App) : App * list message :=
  let a1 := persist_current_prompt a in
  match _get_selected_item a1 with
  | None => (a1, [])
  | Some selected =>
      let branch_item := _get_branch_item_for (tree a1) selected in
      let a2 :=
        match branch_of_item a1 branch_item with
        | Some (bi, _) => update_prompt_text_from_branch bi (set_current_branch (Some bi) a1)
        | None => with_prompt_text "" (with_current_branch None a1)
        end in
      let node_obj :=
        match node_data a2 !! selected with
        | Some (ImageRef bi i) =>
            match branches a2 !! bi with
            | Some b => images b !! i
            | None => None
            end
        | _ => None
        end in
      match node_obj with
      | Some img => _show_image_preview (image_bytes img) a2
      | None => (with_image_preview None a2, [])
      end
  end.

(** The user picks a node of the tree, or clears the selection: the
    selection changes and the [<<TreeviewSelect>>] handler runs. *)
Definition select (node : option nat) (a : App) : App * list message :=
  let t := tree a in
  let t' := match node with
            | Some item => mkTree (tv_items t) [item] (Some item) (tv_serial t)
            | None => mkTree (tv_items t) [] (tv_focus t) (tv_serial t)
            end in
  on_tree_select (with_tree t' a).

(** [clear_project_data] *)
Definition clear_project_data (a : App) : App :=
  mkApp [] ∅ None [] (tree_delete_all (tree a)) "" "" None (project_name_var a).

Definition _desktop_scanner_folder : string :=
  OsPath.join home ["Desktop"; "Scanner"].

End WithPlatform.
End Handlers.

(** ** Saving and loading a project *)

Module Persistence.
Import PyStr Fs Model Handlers.

(** One entry of ["Branches"] *)
Definition branch_json (b : BranchData) : json :=
  JObj [ ("Name", JStr (name b));
         ("Prompt", JStr (prompt b));
         ("ImagePaths", JArr (map JStr (image_paths b))) ].

(** [json_obj] of [save_project] *)
Definition project_json (story : string) (bs : list BranchData) : json :=
  JObj [ ("Story", JStr story); ("Branches", JArr (map branch_json bs)) ].

(** The [for img_data in branch.images] loop: the file system after the
    copies, the names appended to [branch.image_paths], and the
    "Image Copy Error" boxes. *)
Fixpoint copy_images (project_path : string) (imgs : list ImageData)
    (fs : FileSystem) : FileSystem * list string * list message :=
  match imgs with
  | [] => (fs, [], [])
  | img_data :: rest =>
      let new_name := OsPath.basename (original_path img_data) in
      let new_path := OsPath.join2 project_path new_name in
      match copy2 fs (original_path img_data) new_path with
      | None =>
          let '(fs', names, ms) := copy_images project_path rest fs in
          (fs', names, ImageCopyError (original_path img_data) :: ms)
      | Some fs1 =>
          let '(fs', names, ms) := copy_images project_path rest fs1 in
          (fs', new_name :: names, ms)
      end
  end.

(** The [for branch in self.branches] loop *)
Fixpoint save_branches (project_path : string) (bs : list BranchData)
    (fs : FileSystem) : FileSystem * list BranchData * list message :=
  match bs with
  | [] => (fs, [], [])
  | branch :: rest =>
      let '(fs1, names, ms1) := copy_images project_path (images branch) fs in
      let '(fs2, rest', ms2) := save_branches project_path rest fs1 in
      (fs2, set_image_paths names branch :: rest', ms1 ++ ms2)
  end.

(** The typed reading of a branch entry: a missing key takes its default,
    a value of another JSON type has no reading. *)
Definition get_str (m : list (string * json)) (key default : string) : option string :=
  match dict_get m key with
  | None => Some default
  | Some (JStr s) => Some s
  | Some _ => None
  end.

Fixpoint all_strings (l : list json) : option (list string) :=
  match l with
  | [] => Some []
  | JStr s :: r =>
      match all_strings r with
      | Some ss => Some (s :: ss)
      | None => None
      end
  | _ :: _ => None
  end.

Definition get_str_list (m : list (string * json)) (key : string) : option (list string) :=
  match dict_get m key with
  | None => Some []
  | Some (JArr l) => all_strings l
  | Some _ => None
  end.

Section WithPlatform.
Context `{P : Platform}.

(** The project name of [save_project]: the entry stripped or, when that is
    blank, the dialog's answer as it is ([None]: the handler returns). *)
Definition resolve_project_name (answer : option string) (a : App)
  : option (string * App) :=
  let project_name := strip (project_name_var a) in
  if is_empty project_name then
    match answer with
    | None => None
    | Some asked =>
        if is_empty asked then None
        else Some (asked, with_project_name_var asked a)
    end
  else Some (project_name, a).

(** [self.story_text.get("1.0", "end").rstrip("\n")] *)
Definition current_story (a : App) : string := rstrip_nl (text_get (story_text a)).

(** [save_project]; [answer] is what [simpledialog.askstring] returns when
    the project name entry is blank. *)
Definition save_project (answer : option string) (fs : FileSystem) (a : App)
  : App * FileSystem * list message :=
  let a1 := persist_current_prompt a in
  match resolve_project_name answer a1 with
  | None => (a1, fs, [])
  | Some (project_name, a2) =>
      let base := _desktop_scanner_folder in
      let project_path := OsPath.join2 base project_name in
      if exists_ fs project_path then (a2, fs, [SaveErrorExists])
      else
        match makedirs fs project_path with
        | None => (a2, fs, [Uncaught])
        | Some fs1 =>
            let story := current_story a2 in
            let '(fs2, bs, warnings) := save_branches project_path (branches a2) fs1 in
            let a3 := with_branches bs a2 in
            let json_obj := project_json story bs in
            let json_path := OsPath.join2 project_path "project.json" in
            match write_bytes fs2 json_path (json_dump json_obj) with
            | None => (a3, fs2, warnings ++ [SaveErrorManifest])
            | Some fs3 => (a3, fs3, warnings ++ [SaveSuccessful project_path])
            end
        end
  end.

(** The [for img_name in image_paths] loop of [load_project] *)
Fixpoint load_images (project_path : string) (fs : FileSystem)
    (branch_item branch : nat) (image_paths : list string) (image_counter : nat)
    (a : App) : App :=
  match image_paths with
  | [] => a
  | img_name :: rest =>
      let img_path := OsPath.join2 project_path img_name in
      if negb (exists_ fs img_path) then
        load_images project_path fs branch_item branch rest image_counter a
      else
        match read_bytes fs img_path with
        | None => load_images project_path fs branch_item branch rest image_counter a
        | Some img_bytes =>
            load_images project_path fs branch_item branch rest (S image_counter)
              (attach_image branch_item branch img_path img_bytes image_counter a)
        end
  end.

(** The body of [for b in branches_json], for an entry whose fields have
    the expected types *)
Definition load_branch (project_path : string) (fs : FileSystem)
    (branch_name branch_prompt : string) (paths : list string) (a : App) : App :=
  let branch := mkBranch branch_name branch_prompt paths [] in
  let idx := length (branches a) in
  let a1 := with_branches (branches a ++ [branch]) a in
  let '(branch_item, t1) := tree_insert None (BranchLabel branch_name) None (tree a1) in
  let a2 := with_node_data (<[branch_item := BranchRef idx]> (node_data a1))
                           (with_tree t1 a1) in
  let a3 := load_images project_path fs branch_item idx paths 1 a2 in
  with_tree (tree_open branch_item (tree a3)) a3.

(** The [for b in branches_json] loop: an entry that is no object makes
    [b.get] raise. *)
Fixpoint load_branches (project_path : string) (fs : FileSystem)
    (branches_json : list json) (a : App) : App * list message :=
  match branches_json with
  | [] => (a, [])
  | JObj m :: rest =>
      match get_str m "Name" "Branch", get_str m "Prompt" "", get_str_list m "ImagePaths" with
      | Some branch_name, Some branch_prompt, Some paths =>
          load_branches project_path fs rest
            (load_branch project_path fs branch_name branch_prompt paths a)
      | _, _, _ => (a, [OutsideModel])
      end
  | _ :: _ => (a, [Uncaught])
  end.

(** [load_project] after the manifest has been read and parsed *)
Definition populate (project_path : string) (fs : FileSystem) (json_obj : json)
    (a : App) : App * list message :=
  let a1 := clear_project_data a in
  match json_obj with
  | JObj m =>
      match get_str m "Story" "" with
      | None => (a1, [OutsideModel])
      | Some story =>
          let a2 := with_story_text (story +:+ story_text a1) a1 in
          match dict_get m "Branches" with
          | None => (a2, [])
          | Some (JArr branches_json) => load_branches project_path fs branches_json a2
          | Some (JStr EmptyString) | Some (JObj []) => (a2, [])
          | Some _ => (a2, [Uncaught])
          end
      end
  | _ => (a1, [Uncaught])
  end.

(** [load_project]; [filename] is what [filedialog.askopenfilename]
    returns. *)
Definition load_project (filename : string) (fs : FileSystem) (a : App)
  : App * FileSystem * list message :=
  let base := _desktop_scanner_folder in
  match makedirs fs base with
  | None => (a, fs, [Uncaught])
  | Some fs1 =>
      if is_empty filename then (a, fs1, [])
      else
        let project_path := OsPath.dirname filename in
        let project_name := OsPath.basename project_path in
        let a1 := with_project_name_var project_name a in
        match read_bytes fs1 filename with
        | None => (a1, fs1, [LoadError])
        | Some data =>
            match json_load data with
            | None => (a1, fs1, [LoadError])
            | Some json_obj =>
                let '(a2, ms) := populate project_path fs1 json_obj a1 in
                (a2, fs1, ms)
            end
        end
  end.

(** [on_close] *)
Definition on_close (a : App) : App := clear_project_data a.

End WithPlatform.
End Persistence.

(** ** A session: the user's actions, one after the other *)

Module Session.
Import Fs Model Handlers Persistence.

(** What the user does; typing replaces the content of an entry. *)
Inductive event :=
| AddBranch (answer : option string) (draw : nat)
| UploadImages (filenames : list string)
| Select (node : option nat)
| TreeviewSelect
| TypePrompt (content : string)
| TypeStory (content : string)
| TypeProjectName (content : string)
| SaveProject (answer : option string)
| LoadProject (filename : string)
| Close.

Section WithPlatform.
Context `{P : Platform}.

Definition handle (e : event) (fs : FileSystem) (a : App)
  : App * FileSystem * list message :=
  match e with
  | AddBranch answer draw => (add_branch answer draw a, fs, [])
  | UploadImages filenames =>
      let '(a', ms) := upload_images filenames fs a in (a', fs, ms)
  | Select node => let '(a', ms) := select node a in (a', fs, ms)
  | TreeviewSelect => let '(a', ms) := on_tree_select a in (a', fs, ms)
  | TypePrompt content => (with_prompt_text content a, fs, [])
  | TypeStory content => (with_story_text content a, fs, [])
  | TypeProjectName content => (with_project_name_var content a, fs, [])
  | SaveProject answer => save_project answer fs a
  | LoadProject filename => load_project filename fs a
  | Close => (on_close a, fs, [])
  end.

(** Every reference to a branch or to an image points into [branches]:
    the current branch and the values of [node_data] are live objects. *)
Definition refs_valid (a : App) : Prop :=
  (forall cur, current_branch a = Some cur -> cur < length (branches a))
  /\ (forall item bi, node_data a !! item = Some (BranchRef bi) -> bi < length (branches a))
  /\ (forall item bi i, node_data a !! item = Some (ImageRef bi i) ->
        exists b, branches a !! bi = Some b /\ i < length (images b)).




(** The actions of a session, each on the file system it finds (the world
    may change the disk between two actions). *)
Fixpoint run (steps : list (event * FileSystem)) (a : App) : App :=
  match steps with
  | [] => a
  | (e, fs) :: rest => run rest (fst (fst (handle e fs a)))
  end.


End WithPlatform.
End Session.

(** ** A compact JSON printer and parser

    An instance of the [json] module of [Platform] for the examples. *)

Module CompactJson.

Definition quote : ascii := ascii_of_nat 34.
Definition backslash : ascii := "\"%char.

Fixpoint escape (s : string) : string :=
  match s with
  | EmptyString => EmptyString
  | String c r =>
      if Ascii.eqb c quote || Ascii.eqb c backslash
      then String backslash (String c (escape r))
      else String c (escape r)
  end.

Definition quoted (s : string) : string :=
  String quote (escape s +:+ String quote EmptyString).

Definition print_nat (n : nat) : string :=
  NilZero.string_of_uint (Nat.to_uint n).

Fixpoint sep_by (sep : string) (l : list string) : string :=
  match l with
  | [] => EmptyString
  | [x] => x
  | x :: r => x +:+ sep +:+ sep_by sep r
  end.

Fixpoint print (j : json) : string :=
  match j with
  | JNull => "null"
  | JBool true => "true"
  | JBool false => "false"
  | JNum (Z.neg p) => String "-" (print_nat (Pos.to_nat p))
  | JNum n => print_nat (Z.to_nat n)
  | JStr s => quoted s
  | JArr l => "[" +:+ sep_by "," (map print l) +:+ "]"
  | JObj m =>
      "{" +:+ sep_by "," (map (fun kv => quoted (fst kv) +:+ ":" +:+ print (snd kv)) m)
          +:+ "}"
  end.

(** The body of a string literal up to its closing quote, and the rest. *)
Fixpoint parse_chars (s : string) : option (string * string) :=
  match s with
  | EmptyString => None
  | String c r =>
      if Ascii.eqb c quote then Some (EmptyString, r)
      else if Ascii.eqb c backslash then
        match r with
        | String d r' =>
            match parse_chars r' with
            | Some (body, rest) => Some (String d body, rest)
            | None => None
            end
        | EmptyString => None
        end
      else
        match parse_chars r with
        | Some (body, rest) => Some (String c body, rest)
        | None => None
        end
  end.

Definition is_digit (c : ascii) : bool :=
  let n := nat_of_ascii c in (48 <=? n) && (n <=? 57).

Fixpoint digits (s : string) : string * string :=
  match s with
  | String c r =>
      if is_digit c then let '(d, rest) := digits r in (String c d, rest)
      else (EmptyString, s)
  | EmptyString => (EmptyString, EmptyString)
  end.

Definition parse_nat (s : string) : option (nat * string) :=
  let '(d, rest) := digits s in
  match NilZero.uint_of_string d with
  | Some u => if PyStr.is_empty d then None else Some (Nat.of_uint u, rest)
  | None => None
  end.

Definition eat (c : ascii) (s : string) : option string :=
  match s with
  | String d r => if Ascii.eqb c d then Some r else None
  | EmptyString => None
  end.

Fixpoint eat_all (lit s : string) : option string :=
  match lit with
  | EmptyString => Some s
  | String c l =>
      match eat c s with
      | Some r => eat_all l r
      | None => None
      end
  end.

Fixpoint parse_value (fuel : nat) (s : string) : option (json * string) :=
  match fuel with
  | O => None
  | S k =>
      match s with
      | String "n" _ => option_map (pair JNull) (eat_all "null" s)
      | String "t" _ => option_map (pair (JBool true)) (eat_all "true" s)
      | String "f" _ => option_map (pair (JBool false)) (eat_all "false" s)
      | String "034" r =>
          match parse_chars r with
          | Some (body, rest) => Some (JStr body, rest)
          | None => None
          end
      | String "-" r =>
          match parse_nat r with
          | Some (n, rest) => Some (JNum (- Z.of_nat n), rest)
          | None => None
          end
      | String "[" (String "]" rest) => Some (JArr [], rest)
      | String "[" r =>
          match parse_elements k r with
          | Some (l, rest) => Some (JArr l, rest)
          | None => None
          end
      | String "{" (String "}" rest) => Some (JObj [], rest)
      | String "{" r =>
          match parse_members k r with
          | Some (m, rest) => Some (JObj m, rest)
          | None => None
          end
      | _ =>
          match parse_nat s with
          | Some (n, rest) => Some (JNum (Z.of_nat n), rest)
          | None => None
          end
      end
  end
with parse_elements (fuel : nat) (s : string) : option (list json * string) :=
  match fuel with
  | O => None
  | S k =>
      match parse_value k s with
      | Some (v, String "," rest) =>
          match parse_elements k rest with
          | Some (l, rest') => Some (v :: l, rest')
          | None => None
          end
      | Some (v, String "]" rest) => Some ([v], rest)
      | _ => None
      end
  end
with parse_members (fuel : nat) (s : string) : option (list (string * json) * string) :=
  match fuel with
  | O => None
  | S k =>
      match eat quote s with
      | Some r =>
          match parse_chars r with
          | Some (key, String ":" r') =>
              match parse_value k r' with
              | Some (v, String "," rest) =>
                  match parse_members k rest with
                  | Some (m, rest') => Some ((key, v) :: m, rest')
                  | None => None
                  end
              | Some (v, String "}" rest) => Some ([(key, v)], rest)
              | _ => None
              end
          | _ => None
          end
      | None => None
      end
  end.

Definition dump (j : json) : list byte := list_byte_of_string (print j).

Definition load (data : list byte) : option json :=
  let s := string_of_list_byte data in
  match parse_value (S (String.length s)) s with
  | Some (j, EmptyString) => Some j
  | _ => None
  end.

(** A platform for the examples: every image decodes, Pillow is there. *)
Definition platform : Platform :=
  {| home := "/home/user";
     PIL_AVAILABLE := true;
     image_decodes := fun _ => true;
     json_dump := dump;
     json_load := load |}.

End CompactJson.

(** ** Sample data *)

Module Examples.
Import Fs Model Handlers Persistence Session.

(** Two image files somewhere on the disk *)
Definition disk : FileSystem :=
  mkFs (<["/img/a.png" := [x01; x02]]> (<["/img/b.png" := [x03]]> ∅)) ∅ ∅ ∅.


(** A disk on which the project [old] is there already *)
Definition disk_with_old : FileSystem :=
  mkFs (files disk) {["/home/user/Desktop/Scanner/old"]} ∅ ∅.

(** One branch, selected, with the two images uploaded and a prompt being
    typed *)
Definition two_images : App :=
  with_prompt_text "a quiet harbour"
    (with_story_text "Once upon a time"
       (fst (upload_images (P := CompactJson.platform) ["/img/a.png"; "/img/b.png"] disk
               (add_branch (Some "Branch 1") 0 init)))).

(** A second branch next to the first, the first one's item is 0 *)
Definition two_branches : App :=
  with_prompt_text "edited" (add_branch (Some "Branch 2") 1 (add_branch (Some "Branch 1") 0 init)).



(** A file that is no JSON *)
Definition disk_garbled : FileSystem :=
  mkFs (<["/home/user/Desktop/Scanner/bad/project.json" := [x7b; x7b]]> ∅) ∅ ∅ ∅.


(** Two files of the same base name in two folders, and a branch that holds
    both *)
Definition disk_twins : FileSystem :=
  mkFs (<["/img/a.png" := [x01; x02]]> (<["/other/a.png" := [x03]]> ∅)) ∅ ∅ ∅.

Definition twins : App :=
  fst (upload_images (P := CompactJson.platform) ["/img/a.png"; "/other/a.png"] disk_twins
         (add_branch (Some "Branch 1") 0 init)).

(** A quantities file in the Scanner folder *)
Definition disk_quantities : FileSystem :=
  mkFs (<["/home/user/Desktop/Scanner/quantities.txt" := list_byte_of_string "bolt, 4"]> ∅)
       {["/home/user/Desktop/Scanner"]} ∅ ∅.

End Examples.

(** ** What save and load are expected to leave

    The definitions of this part state the outcome of the two loops over
    the images image by image, from the file system the loop starts on; the
    theorems below relate the loops to them. *)

Module Outcome.
Import PyStr Fs Model Handlers Persistence.

(** Where [save_project] copies an image to *)
Definition destination (project_path : string) (img : ImageData) : string :=
  OsPath.join2 project_path (OsPath.basename (original_path img)).

(** The copy of [img] into [project_path] succeeds on [fs]. *)
Definition copies (fs : FileSystem) (project_path : string) (img : ImageData) : bool :=
  bool_decide (is_Some (copy2 fs (original_path img) (destination project_path img))).

(** The base names of the images of a branch that are copied, in the order
    of the images *)
Definition copied_names (fs : FileSystem) (project_path : string) (b : BranchData)
  : list string :=
  map (fun img => OsPath.basename (original_path img))
      (filter (fun img => copies fs project_path img) (images b)).

(** The "Image Copy Error" boxes of a branch *)
Definition copy_warnings (fs : FileSystem) (project_path : string) (b : BranchData)
  : list message :=
  map (fun img => ImageCopyError (original_path img))
      (filter (fun img => negb (copies fs project_path img)) (images b)).


(** [fs] is [fs1] but for files at destinations of copies into
    [project_path]: the file systems the copy loops go through. *)
Definition grown (project_path : string) (fs1 fs : FileSystem) : Prop :=
  dirs fs = dirs fs1 /\ unreadable fs = unreadable fs1 /\ unwritable fs = unwritable fs1
  /\ forall p : string,
       (forall n, OsPath.no_sep n = true -> p <> OsPath.join2 project_path n) ->
       files fs !! p = files fs1 !! p.

Section WithPlatform.
Context `{P : Platform}.




End WithPlatform.
End Outcome.

(** ** The quantities tab *)

(** Reading and writing a text file: what [open(path, "r",
    encoding="utf-8").read()] makes of the bytes of the file ([None] when
    decoding raises), and the bytes [f.write(txt)] leaves in a file opened
    with [open(path, "w", encoding="utf-8")]. *)
Class TextFiles := {
  read_text : list byte -> option string;
  write_text : string -> list byte
}.

Module Quantities.
Import PyStr Fs Model Handlers Formatter.

(** The message boxes of the quantities tab *)
Inductive notice :=
| FileNotFound (file_path : string)
| ReadError
| CsvReadError
| NothingToExport
| ExportError
| ExportComplete.

Section WithPlatform.
Context `{P : Platform} `{T : TextFiles}.

(** [with open(path, "r", encoding="utf-8") as f: content = f.read()];
    [None] when it raises *)
Definition read_file (fs : FileSystem) (path : string) : option string :=
  match read_bytes fs path with
  | Some data => read_text data
  | None => None
  end.

(** [refresh_quantities]: the content of the quantities box afterwards, and
    the boxes shown. The box is emptied before the file is looked for. *)
Definition refresh_quantities (fs : FileSystem) : string * list notice :=
  let base := _desktop_scanner_folder in
  let file_path := OsPath.join2 base "quantities.txt" in
  if negb (exists_ fs file_path) then ("", [FileNotFound file_path])
  else
    match read_file fs file_path with
    | None => ("", [ReadError])
    | Some content => (_format_csv_like_text content, [])
    end.

(** [load_quantities_csv]; [filename] is what [filedialog.askopenfilename]
    returns, [quantities_text] the content of the box before. *)
Definition load_quantities_csv (filename : string) (fs : FileSystem)
    (quantities_text : string) : string * list notice :=
  if is_empty filename then (quantities_text, [])
  else
    match read_file fs filename with
    | None => (quantities_text, [CsvReadError])
    | Some content => (_format_csv_like_text content, [])
    end.


(** The lines of a [tk.Text]: line [k + 1] of the widget is the piece
    number [k] of the content split at its newlines. *)
Definition text_line (content : string) (k : nat) : string :=
  nth k (split_on LF content) "".

(** [on_quantities_click]; [k + 1] is the line number of the index under
    the pointer. *)
Definition on_quantities_click (k : nat) (quantities_text : string) (a : App) : App :=
  let line_text := rstrip_by is_space (text_line quantities_text k) in
  if is_empty (strip line_text) then a
  else with_prompt_text (prompt_text a +:+ line_text +:+ NL) a.

End WithPlatform.
End Quantities.

(** ** What an upload leaves, and the shape of the tree *)

Module Shape.
Import PyStr Fs Model Handlers.

Section WithPlatform.
Context `{P : Platform}.

(** The image [upload_images] builds for a chosen file, if it can be read *)
Definition uploaded_image (fs : FileSystem) (fname : string) : option ImageData :=
  match read_bytes fs fname with
  | Some img_bytes => Some (mkImage fname img_bytes (_create_thumbnail img_bytes (24, 24)))
  | None => None
  end.

Definition uploaded_images (fs : FileSystem) (filenames : list string) : list ImageData :=
  omap (uploaded_image fs) filenames.

(** The "Could not read image" boxes of an upload *)
Definition upload_errors (fs : FileSystem) (filenames : list string) : list message :=
  map ImageReadError
      (filter (fun fname => negb (bool_decide (is_Some (read_bytes fs fname)))) filenames).

End WithPlatform.





End Shape.

(** ** Text files of ASCII characters, on which UTF-8 is the identity *)

Module AsciiText.

#[export] Instance text_files : TextFiles :=
  {| read_text := fun data => Some (string_of_list_byte data);
     write_text := list_byte_of_string |}.

End AsciiText.

(** * Properties *)

#[local] Arguments PyStr.is_linebreak : simpl never.
#[local] Arguments PyStr.is_space : simpl never.

(** ** Strings *)

Section StringFacts.
Import PyStr.

Lemma length_append (s t : string) :
  String.length (s +:+ t) = String.length s + String.length t.
Proof. induction s as [|c s IH]; simpl; [reflexivity | now rewrite IH]. Qed.

Lemma append_assoc (s t u : string) : (s +:+ t) +:+ u = s +:+ t +:+ u.
Proof. induction s as [|c s IH]; simpl; [reflexivity | now rewrite IH]. Qed.


Lemma length_spaces (n : nat) : String.length (spaces n) = n.
Proof. induction n as [|n IH]; simpl; [reflexivity | now rewrite IH]. Qed.

Lemma length_ljust (w : nat) (s : string) :
  String.length (ljust w s) = Nat.max w (String.length s).
Proof. unfold ljust. rewrite length_append, length_spaces. lia. Qed.

Lemma rstrip_by_snoc (p : ascii -> bool) (s : string) (c : ascii) :
  p c = true -> rstrip_by p (s +:+ String c "") = rstrip_by p s.
Proof.
  intros Hc. induction s as [|d s IH]; simpl; [now rewrite Hc | now rewrite IH].
Qed.

Lemma rstrip_by_idem (p : ascii -> bool) (s : string) :
  rstrip_by p (rstrip_by p s) = rstrip_by p s.
Proof.
  induction s as [|d s IH]; [reflexivity|]. simpl.
  destruct (p d && is_empty (rstrip_by p s)) eqn:E; [reflexivity|].
  simpl. now rewrite IH, E.
Qed.


Lemma is_empty_true (s : string) : is_empty s = true <-> s = "".
Proof. destruct s; simpl; split; congruence. Qed.

Lemma all_chars_append (p : ascii -> bool) (s t : string) :
  all_chars p (s +:+ t) = all_chars p s && all_chars p t.
Proof.
  induction s as [|c s IH]; simpl; [reflexivity|].
  now rewrite IH, andb_assoc.
Qed.

Lemma all_chars_spaces (p : ascii -> bool) (n : nat) :
  p space = true -> all_chars p (spaces n) = true.
Proof. intros Hp. induction n as [|n IH]; simpl; [reflexivity | now rewrite Hp, IH]. Qed.

Lemma all_chars_lstrip (p q : ascii -> bool) (s : string) :
  all_chars p s = true -> all_chars p (lstrip_by q s) = true.
Proof.
  induction s as [|c s IH]; simpl; [reflexivity|].
  intros [Hc Hs]%andb_true_iff. destruct (q c); [auto|].
  simpl. now rewrite Hc, Hs.
Qed.

Lemma all_chars_rstrip (p q : ascii -> bool) (s : string) :
  all_chars p s = true -> all_chars p (rstrip_by q s) = true.
Proof.
  induction s as [|c s IH]; simpl; [reflexivity|].
  intros [Hc Hs]%andb_true_iff.
  destruct (q c && is_empty (rstrip_by q s)); [reflexivity|].
  simpl. now rewrite Hc, IH.
Qed.

Lemma all_chars_strip (p : ascii -> bool) (s : string) :
  all_chars p s = true -> all_chars p (strip s) = true.
Proof. intros H. unfold strip. now apply all_chars_lstrip, all_chars_rstrip. Qed.

Lemma all_chars_split_on (p : ascii -> bool) (sep : ascii) (s : string) :
  all_chars p s = true -> Forall (fun f => all_chars p f = true) (split_on sep s).
Proof.
  induction s as [|c s IH]; simpl; intros H.
  - repeat constructor.
  - apply andb_true_iff in H as [Hc Hs]. specialize (IH Hs).
    destruct (Ascii.eqb c sep).
    + constructor; [reflexivity | exact IH].
    + destruct (split_on sep s) as [|f fs]; [repeat constructor; simpl; now rewrite Hc|].
      inversion IH; subst. constructor; [simpl; now rewrite Hc | assumption].
Qed.

Lemma splitlines_LF (r : string) : splitlines (String LF r) = "" :: splitlines r.
Proof. destruct r; reflexivity. Qed.

Lemma splitlines_cons_other (c : ascii) (r : string) :
  is_linebreak c = false ->
  splitlines (String c r) =
  match splitlines r with [] => [String c ""] | l :: ls => String c l :: ls end.
Proof. intros H. change (splitlines (String c r)) with
  (if is_linebreak c
   then "" :: match r with
              | String d r' =>
                  if Ascii.eqb c CR && Ascii.eqb d LF then splitlines r' else splitlines r
              | EmptyString => []
              end
   else match splitlines r with [] => [String c ""] | l :: ls => String c l :: ls end).
  now rewrite H.
Qed.

Lemma splitlines_cons_break (c : ascii) (r : string) :
  is_linebreak c = true ->
  splitlines (String c r) =
  "" :: match r with
        | String d r' =>
            if Ascii.eqb c CR && Ascii.eqb d LF then splitlines r' else splitlines r
        | EmptyString => []
        end.
Proof. intros H. change (splitlines (String c r)) with
  (if is_linebreak c
   then "" :: match r with
              | String d r' =>
                  if Ascii.eqb c CR && Ascii.eqb d LF then splitlines r' else splitlines r
              | EmptyString => []
              end
   else match splitlines r with [] => [String c ""] | l :: ls => String c l :: ls end).
  now rewrite H.
Qed.

Lemma splitlines_no_break (s : string) :
  Forall (fun l => no_break l = true) (splitlines s).
Proof.
  assert (H : Forall (fun l => no_break l = true) (splitlines s) /\
              forall c, Forall (fun l => no_break l = true) (splitlines (String c s))).
  { induction s as [|d s [IH1 IH2]].
    - split; [constructor|]. intros c.
      destruct (is_linebreak c) eqn:E.
      + rewrite (splitlines_cons_break _ _ E). repeat constructor.
      + rewrite (splitlines_cons_other _ _ E). repeat constructor.
        unfold no_break. simpl. now rewrite E.
    - split; [apply IH2|]. intros c.
      destruct (is_linebreak c) eqn:E.
      + rewrite (splitlines_cons_break _ _ E).
        constructor; [reflexivity|].
        destruct (Ascii.eqb c CR && Ascii.eqb d LF); [exact IH1 | apply IH2].
      + rewrite (splitlines_cons_other _ _ E).
        specialize (IH2 d). destruct (splitlines (String d s)) as [|l ls].
        * repeat constructor. unfold no_break. simpl. now rewrite E.
        * inversion IH2; subst. constructor; [|assumption].
          unfold no_break in *. simpl. now rewrite E. }
  apply H.
Qed.

Lemma splitlines_line_LF (l r : string) :
  no_break l = true -> splitlines (l +:+ String LF r) = l :: splitlines r.
Proof.
  induction l as [|c l IH]; intros H.
  - apply splitlines_LF.
  - unfold no_break in H. simpl in H. apply andb_true_iff in H as [Hc Hl].
    apply negb_true_iff in Hc. cbn [String.append].
    rewrite (splitlines_cons_other _ _ Hc). now rewrite (IH Hl).
Qed.

Lemma splitlines_join (ls : list string) :
  Forall (fun l => no_break l = true) ls -> ls <> [] ->
  splitlines (join (String LF "") ls +:+ String LF "") = ls.
Proof.
  induction ls as [|l ls IH]; intros HF Hne; [congruence|].
  inversion HF as [|? ? Hl HF']; subst.
  destruct ls as [|l' ls].
  - simpl. now rewrite splitlines_line_LF.
  - change (join (String LF "") (l :: l' :: ls))
      with (l +:+ String LF "" +:+ join (String LF "") (l' :: ls)).
    rewrite !append_assoc. cbn [String.append].
    rewrite splitlines_line_LF by assumption.
    f_equal. apply IH; [assumption | congruence].
Qed.

Lemma length_join_empty (ls : list string) :
  String.length (join "" ls) = list_sum (map String.length ls).
Proof.
  induction ls as [|l ls IH]; [reflexivity|].
  destruct ls as [|l' ls]; [simpl; lia|].
  change (join "" (l :: l' :: ls)) with (l +:+ "" +:+ join "" (l' :: ls)).
  rewrite length_append. cbn [String.append]. rewrite IH. reflexivity.
Qed.

Lemma all_chars_join_empty (p : ascii -> bool) (ls : list string) :
  Forall (fun l => all_chars p l = true) ls -> all_chars p (join "" ls) = true.
Proof.
  induction ls as [|l ls IH]; intros HF; [reflexivity|].
  inversion HF; subst.
  destruct ls as [|l' ls]; [assumption|].
  change (join "" (l :: l' :: ls)) with (l +:+ "" +:+ join "" (l' :: ls)).
  rewrite all_chars_append. cbn [String.append]. rewrite IH by assumption.
  now rewrite andb_true_r.
Qed.

End StringFacts.

(** ** The quantities formatter *)

Section FormatterFacts.
Import PyStr Formatter.

Lemma Forall_filter_bool {A} (P : A -> Prop) (q : A -> bool) (l : list A) :
  Forall P l -> Forall P (filter (fun x => q x) l).
Proof.
  intros H. apply Forall_forall. intros x Hx.
  apply list_elem_of_filter in Hx as [_ Hx].
  rewrite Forall_forall in H. now apply H.
Qed.

Lemma kept_lines_no_break (content : string) :
  Forall (fun l => no_break l = true) (kept_lines content).
Proof. apply Forall_filter_bool, splitlines_no_break. Qed.

Lemma fields_no_break (ln : string) :
  no_break ln = true -> Forall (fun f => no_break f = true) (fields ln).
Proof.
  intros H. unfold fields. apply Forall_map.
  apply (Forall_filter_bool (fun f => no_break (strip f) = true)).
  eapply Forall_impl; [apply all_chars_split_on; exact H|].
  intros f Hf. now apply all_chars_strip.
Qed.

Lemma format_line_no_break (ln : string) :
  no_break ln = true -> no_break (format_line ln) = true.
Proof.
  intros H. unfold format_line. apply all_chars_join_empty.
  apply Forall_map. eapply Forall_impl; [apply fields_no_break; exact H|].
  intros f Hf. unfold ljust. cbv beta. unfold no_break in *.
  rewrite all_chars_append, Hf. now rewrite all_chars_spaces.
Qed.

(** The lines of the output are the formatted non-blank lines of the input,
    one for one. *)
Lemma format_output_lines (content : string) :
  splitlines (_format_csv_like_text content) = map format_line (kept_lines content).
Proof.
  unfold _format_csv_like_text.
  assert (HF : Forall (fun l => no_break l = true) (map format_line (kept_lines content))).
  { apply Forall_map. eapply Forall_impl; [apply kept_lines_no_break|].
    intros ln Hln. now apply format_line_no_break. }
  destruct (map format_line (kept_lines content)) as [|o os] eqn:E.
  - reflexivity.
  - apply splitlines_join; [exact HF | congruence].
Qed.

Lemma list_sum_cons (x : nat) (l : list nat) : list_sum (x :: l) = x + list_sum l.
Proof. reflexivity. Qed.

Lemma length_format_line (ln : string) :
  String.length (format_line ln) = line_width (fields ln).
Proof.
  unfold format_line, line_width. rewrite length_join_empty, map_map.
  induction (fields ln) as [|f fs IH]; [reflexivity|].
  cbn [map]. now rewrite !list_sum_cons, length_ljust, IH.
Qed.

Lemma line_width_short (fs : list string) :
  Forall (fun f => String.length f <= 15) fs -> line_width fs = 15 * length fs.
Proof.
  unfold line_width. induction 1 as [|f fs Hf _ IH]; [reflexivity|].
  cbn [map length]. rewrite list_sum_cons, IH. lia.
Qed.

Lemma fields_all_blank (ln : string) :
  Forall (fun f => strip f = "") (split_on comma ln) -> fields ln = [].
Proof.
  unfold fields. induction 1 as [|f fs Hf _ IH]; [reflexivity|].
  rewrite filter_cons_False; [exact IH|].
  rewrite Hf. simpl. auto.
Qed.

(** C2, as amended. The formatter's output has one line for each input line
    that is not blank; the output line is the formatted input line, its
    length the sum over the trimmed non-empty fields of 15 or, for a longer
    field, the field's own length. Its length is 15 times the number of
    fields, a multiple of 15, when no field is longer than 15 characters. *)
Theorem format_line_count_and_widths (content : string) :
  length (splitlines (_format_csv_like_text content))
    = length (filter (fun ln => nonblank ln) (splitlines content))
  /\ Forall2
       (fun ln out =>
          out = format_line ln
          /\ String.length out = line_width (fields ln)
          /\ (Forall (fun f => String.length f <= 15) (fields ln) ->
              String.length out = 15 * length (fields ln)))
       (kept_lines content) (splitlines (_format_csv_like_text content)).
Proof.
  rewrite format_output_lines. split.
  - now rewrite length_map.
  - induction (kept_lines content) as [|ln lns IH]; constructor; [|exact IH].
    split; [reflexivity|]. split; [apply length_format_line|].
    intros Hshort. rewrite length_format_line. now apply line_width_short.
Qed.

(** A field of 16 characters gives an output line of 16 characters: the
    multiple of 15 that C2 states fails. *)
Lemma format_long_field_not_multiple :
  ~ Forall (fun out => String.length out mod 15 = 0)
      (splitlines (_format_csv_like_text "abcdefghijklmnop")).
Proof.
  intros H. vm_compute in H. inversion H as [|? ? H1 _]. discriminate H1.
Qed.

(** C8. A line that is not blank and whose comma-separated fields all trim
    to the empty string is kept: at its position among the non-blank lines
    the output has an empty line. In particular the input of blanks, a
    comma, blanks and a newline gives a single newline. *)
Theorem format_keeps_line_without_fields :
  (forall (content ln : string) (i : nat),
      kept_lines content !! i = Some ln ->
      nonblank ln = true ->
      Forall (fun f => strip f = "") (split_on comma ln) ->
      splitlines (_format_csv_like_text content) !! i = Some "")
  /\ _format_csv_like_text ("   ,  " +:+ NL) = NL.
Proof.
  split; [|reflexivity].
  intros content ln i Hi _ Hblank.
  rewrite format_output_lines, list_lookup_fmap, Hi. simpl.
  unfold format_line. now rewrite (fields_all_blank _ Hblank).
Qed.

Lemma format_keeps_line_without_fields_witness :
  kept_lines ("a,b" +:+ NL +:+ " , ," +:+ NL) !! 1 = Some " , ,"
  /\ splitlines (_format_csv_like_text ("a,b" +:+ NL +:+ " , ," +:+ NL)) !! 1 = Some "".
Proof.
  split; [reflexivity|].
  apply (proj1 format_keeps_line_without_fields _ " , ," 1).
  - reflexivity.
  - reflexivity.
  - vm_compute. repeat constructor.
Defined.

Lemma format_line_count_and_widths_witness :
  Forall2
    (fun ln out =>
       out = format_line ln
       /\ String.length out = line_width (fields ln)
       /\ (Forall (fun f => String.length f <= 15) (fields ln) ->
           String.length out = 15 * length (fields ln)))
    (kept_lines "a,b,c") (splitlines (_format_csv_like_text "a,b,c")).
Proof. exact (proj2 (format_line_count_and_widths "a,b,c")). Defined.

End FormatterFacts.

(** ** Branches, uploads and the selection *)

Section ProjectModelFacts.
Import PyStr Fs Model Handlers.
Context `{P : Platform}.

Lemma choice_in_pool (draw : nat) : In (choice draw random_prompts) random_prompts.
Proof.
  unfold choice. apply nth_In. apply Nat.mod_upper_bound.
  unfold random_prompts. simpl. lia.
Qed.

Lemma add_branch_named (branch_name : string) (draw : nat) (a : App) :
  branch_name <> "" ->
  branches (add_branch (Some branch_name) draw a)
    = branches a ++ [mkBranch branch_name (choice draw random_prompts) [] []]
  /\ current_branch (add_branch (Some branch_name) draw a) = Some (length (branches a))
  /\ prompt_text (add_branch (Some branch_name) draw a) = choice draw random_prompts.
Proof.
  intros Hne. unfold add_branch.
  destruct (is_empty branch_name) eqn:E; [apply is_empty_true in E; contradiction|].
  unfold update_prompt_text_from_branch, set_current_branch. cbn.
  rewrite lookup_app_r by lia. rewrite Nat.sub_diag. cbn. auto.
Qed.

(** C4, as amended. No branch is appended when the dialog is cancelled or
    the name is the empty string; every other name, one of blanks only
    included, gets a new branch with that name, no image and a prompt of
    the pool, which becomes the current branch. *)
Theorem add_branch_empty_or_named :
  (forall (draw : nat) (a : App),
      add_branch None draw a = a /\ add_branch (Some "") draw a = a)
  /\ (forall (branch_name : string) (draw : nat) (a : App),
        branch_name <> "" ->
        exists p,
          In p random_prompts
          /\ branches (add_branch (Some branch_name) draw a)
             = branches a ++ [mkBranch branch_name p [] []]
          /\ current_branch (add_branch (Some branch_name) draw a)
             = Some (length (branches a))).
Proof.
  split; [intros; split; reflexivity|].
  intros branch_name draw a Hne. exists (choice draw random_prompts).
  destruct (add_branch_named branch_name draw a Hne) as (Hb & Hc & _).
  split; [apply choice_in_pool | split; assumption].
Qed.

Lemma add_branch_empty_or_named_witness :
  exists p,
    In p random_prompts
    /\ branches (add_branch (Some "Branch 1") 9 init) = branches init ++ [mkBranch "Branch 1" p [] []]
    /\ current_branch (add_branch (Some "Branch 1") 9 init) = Some (length (branches init)).
Proof. apply (proj2 add_branch_empty_or_named "Branch 1" 9 init). discriminate. Defined.

(** [add_branch] stores nothing of the prompt box: the branches that were
    there keep their prompts, the one that was current included, and the
    box then shows the prompt of the new branch. What was typed and not yet
    stored by a selection or a save is gone. *)
Remark add_branch_keeps_prompts (branch_name : string) (draw : nat) (a : App)
    (bi : nat) (b : BranchData) :
  branch_name <> "" ->
  branches a !! bi = Some b ->
  branches (add_branch (Some branch_name) draw a) !! bi = Some b
  /\ prompt_text (add_branch (Some branch_name) draw a) = choice draw random_prompts.
Proof.
  intros Hne Hb. destruct (add_branch_named branch_name draw a Hne) as (-> & _ & ->).
  split; [|reflexivity]. rewrite lookup_app_l; [exact Hb|].
  apply lookup_lt_is_Some. eauto.
Qed.

(** A name of three blanks strips to the empty string, and a branch is
    appended for it all the same: C4 fails as it is stated. *)
Lemma add_branch_blank_name_appends :
  strip "   " = ""
  /\ branches (add_branch (Some "   ") 0 init) <> branches init.
Proof. split; [reflexivity | discriminate]. Qed.

(** C5. When the images of the selected item's branch and the batch
    together are more than two, the upload changes nothing of the state, for
    any batch and any file system, and shows the "Image Limit" box; a branch
    of two images is left with its two images. *)
Theorem upload_over_limit_rejected (fs : FileSystem) (a : App)
    (filenames : list string) (selected bi : nat) (b : BranchData) :
  _get_selected_item a = Some selected ->
  branch_of_item a (_get_branch_item_for (tree a) selected) = Some (bi, b) ->
  2 < length (images b) + length filenames ->
  fst (upload_images filenames fs a) = a
  /\ (filenames <> [] -> snd (upload_images filenames fs a) = [ImageLimit])
  /\ branches (fst (upload_images filenames fs a)) !! bi = Some b.
Proof.
  intros Hsel Hbr Hover. unfold upload_images. rewrite Hsel, Hbr.
  assert (Hb : branches a !! bi = Some b).
  { unfold branch_of_item in Hbr.
    destruct (node_data a !! _) as [[bi'|]|]; try discriminate.
    destruct (branches a !! bi') eqn:E; [|discriminate].
    now inversion Hbr; subst. }
  destruct filenames as [|f fl].
  - simpl. split; [reflexivity|]. split; [congruence | exact Hb].
  - apply Nat.ltb_lt in Hover. rewrite Hover. simpl.
    split; [reflexivity|]. split; [reflexivity | exact Hb].
Qed.

End ProjectModelFacts.

Section SelectionFacts.
Import PyStr Fs Model Handlers.
Context `{P : Platform}.

Lemma show_image_preview_keeps (image_bytes : list byte) (a : App) :
  let a' := fst (_show_image_preview image_bytes a) in
  branches a' = branches a /\ current_branch a' = current_branch a
  /\ prompt_text a' = prompt_text a /\ node_data a' = node_data a.
Proof.
  unfold _show_image_preview, _create_thumbnail.
  destruct PIL_AVAILABLE, (image_decodes image_bytes); cbn; auto.
Qed.

Lemma persist_current_prompt_fields (a : App) :
  node_data (persist_current_prompt a) = node_data a
  /\ tree (persist_current_prompt a) = tree a
  /\ current_branch (persist_current_prompt a) = current_branch a
  /\ prompt_text (persist_current_prompt a) = prompt_text a
  /\ story_text (persist_current_prompt a) = story_text a
  /\ project_name_var (persist_current_prompt a) = project_name_var a
  /\ length (branches (persist_current_prompt a)) = length (branches a).
Proof.
  unfold persist_current_prompt. destruct (current_branch a) eqn:E; cbn;
    rewrite ?E; repeat split.
  apply length_alter.
Qed.

Lemma get_branch_item_for_items (t t' : Treeview) (item : nat) :
  tv_items t = tv_items t' -> _get_branch_item_for t item = _get_branch_item_for t' item.
Proof.
  intros H. unfold _get_branch_item_for. rewrite H.
  generalize (size (tv_items t')). intros fuel. revert item.
  induction fuel as [|k IH]; intros item; [reflexivity|].
  simpl. unfold tree_parent. rewrite H.
  destruct (tv_items t' !! item) as [it|]; [|reflexivity].
  destruct (item_parent it); [apply IH | reflexivity].
Qed.



End SelectionFacts.

(** ** Paths *)

Section PathFacts.
Import PyStr OsPath.

Lemma rsplit_sep_no_sep (t : string) : no_sep t = true -> rsplit_sep t = ("", t).
Proof.
  induction t as [|c t IH]; [reflexivity|].
  unfold no_sep. simpl. intros [Hc Ht]%andb_true_iff.
  rewrite (IH Ht). simpl. apply negb_true_iff in Hc. now rewrite Hc.
Qed.

Lemma rsplit_sep_app (h t : string) :
  no_sep t = true -> endswith_sep h = true -> rsplit_sep (h +:+ t) = (h, t).
Proof.
  intros Ht. induction h as [|c h IH]; [discriminate|].
  intros Hend. destruct h as [|d h].
  - simpl in Hend. simpl. rewrite (rsplit_sep_no_sep t Ht). simpl. now rewrite Hend.
  - change (String c (String d h) +:+ t) with (String c (String d h +:+ t)).
    cbn [rsplit_sep]. rewrite IH by exact Hend. reflexivity.
Qed.

Lemma rsplit_sep_tail (p : string) :
  no_sep (snd (rsplit_sep p)) = true
  /\ (fst (rsplit_sep p) = "" -> snd (rsplit_sep p) = p).
Proof.
  induction p as [|c p [IH1 IH2]]; [split; reflexivity|].
  cbn [rsplit_sep]. destruct (rsplit_sep p) as [h t]. simpl in IH1, IH2.
  destruct h as [|d h]; simpl.
  - specialize (IH2 eq_refl). subst t.
    destruct (Ascii.eqb c sep) eqn:E; simpl.
    + split; [exact IH1 | discriminate].
    + split; [|reflexivity]. unfold no_sep in *. simpl. now rewrite E, IH1.
  - split; [exact IH1 | discriminate].
Qed.

Lemma basename_no_sep (p : string) : no_sep (basename p) = true.
Proof. apply rsplit_sep_tail. Qed.

Lemma endswith_sep_append_sep (p : string) : endswith_sep (p +:+ String sep "") = true.
Proof.
  induction p as [|c p IH]; [reflexivity|].
  simpl. destruct (p +:+ String sep "") eqn:E; [|exact IH].
  destruct p; discriminate.
Qed.

Lemma startswith_sep_no_sep (n : string) : no_sep n = true -> startswith_sep n = false.
Proof.
  destruct n as [|c n]; [reflexivity|]. unfold no_sep. simpl.
  intros [Hc _]%andb_true_iff. now apply negb_true_iff in Hc.
Qed.

(** [basename(join(project_path, name)) == name] for a name without
    separator: a source that is the destination of some image is its own
    destination. *)
Lemma basename_join2 (project_path n : string) :
  no_sep n = true -> basename (join2 project_path n) = n.
Proof.
  intros Hn. unfold basename, join2. rewrite (startswith_sep_no_sep n Hn).
  destruct project_path as [|c p].
  - simpl. now rewrite (rsplit_sep_no_sep n Hn).
  - cbn [is_empty orb]. destruct (endswith_sep (String c p)) eqn:E.
    + now rewrite (rsplit_sep_app _ _ Hn E).
    + replace (String c p +:+ String sep n) with ((String c p +:+ String sep "") +:+ n)
        by (rewrite append_assoc; reflexivity).
      now rewrite (rsplit_sep_app _ _ Hn (endswith_sep_append_sep _)).
Qed.






End PathFacts.

(** ** Saving *)

Section CopyFacts.
Import PyStr Fs Model Handlers Persistence Outcome.

Lemma grown_refl (project_path : string) (fs : FileSystem) : grown project_path fs fs.
Proof. repeat split. Qed.

Lemma writable_grown (project_path : string) (fs1 fs : FileSystem) (p : string) :
  grown project_path fs1 fs -> writable fs p = writable fs1 p.
Proof. intros (Hd & _ & Hw & _). unfold writable. now rewrite Hd, Hw. Qed.

(** A copy succeeds during the loop exactly when it succeeds on the file
    system the loop started on. *)
Lemma copy2_grown (project_path : string) (fs1 fs : FileSystem) (img : ImageData) :
  grown project_path fs1 fs ->
  (copies fs1 project_path img = true
   /\ exists fs', copy2 fs (original_path img) (destination project_path img) = Some fs'
                  /\ grown project_path fs1 fs')
  \/ (copies fs1 project_path img = false
      /\ copy2 fs (original_path img) (destination project_path img) = None).
Proof.
  intros Hg. pose proof Hg as (Hd & Hr & Hw & Hf).
  unfold copies, copy2.
  set (src := original_path img). set (dst := destination project_path img).
  destruct (decide (src = dst)) as [Heq|Hne].
  { right. split; [|reflexivity]. apply bool_decide_eq_false. now intros [? ?]. }
  assert (Hread : read_bytes fs src = read_bytes fs1 src).
  { unfold read_bytes. rewrite Hr. destruct (decide (src ∈ unreadable fs1)) as [Hu|Hu]; [reflexivity|].
    apply Hf. intros n Hn Hsrc. apply Hne. subst dst. unfold destination.
    fold src. rewrite Hsrc at 2. now rewrite (basename_join2 _ _ Hn). }
  rewrite Hread. destruct (read_bytes fs1 src) as [data|].
  2:{ right. split; [|reflexivity]. apply bool_decide_eq_false. now intros [? ?]. }
  unfold write_bytes. rewrite (writable_grown _ _ _ dst Hg).
  destruct (writable fs1 dst).
  2:{ right. split; [|reflexivity]. apply bool_decide_eq_false. now intros [? ?]. }
  left. split; [apply bool_decide_eq_true; eauto|].
  eexists. split; [reflexivity|]. repeat split; cbn; try assumption.
  intros p Hp. rewrite lookup_insert_ne; [now apply Hf|].
  intros Hdst. apply (Hp (OsPath.basename src)); [apply basename_no_sep | now symmetry].
Qed.

Lemma copy_images_outcome (project_path : string) (fs1 : FileSystem)
    (imgs : list ImageData) (fs : FileSystem) :
  grown project_path fs1 fs ->
  grown project_path fs1 (fst (fst (copy_images project_path imgs fs)))
  /\ snd (fst (copy_images project_path imgs fs))
     = map (fun img => OsPath.basename (original_path img))
           (filter (fun img => copies fs1 project_path img) imgs)
  /\ snd (copy_images project_path imgs fs)
     = map (fun img => ImageCopyError (original_path img))
           (filter (fun img => negb (copies fs1 project_path img)) imgs).
Proof.
  revert fs. induction imgs as [|img rest IH]; intros fs Hg;
    [split; [exact Hg | split; reflexivity]|].
  cbn [copy_images].
  destruct (copy2_grown project_path fs1 fs img Hg) as [(Hc & fs' & Hcopy & Hg')|(Hc & Hcopy)];
    unfold destination in Hcopy; rewrite Hcopy.
  - rewrite filter_cons_True by (rewrite Hc; exact I).
    rewrite filter_cons_False by (rewrite Hc; simpl; auto).
    destruct (IH fs' Hg') as (IHg & IHn & IHm).
    destruct (copy_images project_path rest fs') as [[fs2 names] ms].
    cbn [fst snd map] in *. now subst.
  - rewrite filter_cons_False by (rewrite Hc; simpl; auto).
    rewrite filter_cons_True by (rewrite Hc; exact I).
    destruct (IH fs Hg) as (IHg & IHn & IHm).
    destruct (copy_images project_path rest fs) as [[fs2 names] ms].
    cbn [fst snd map] in *. now subst.
Qed.

Lemma save_branches_outcome (project_path : string) (fs1 : FileSystem)
    (bs : list BranchData) (fs : FileSystem) :
  grown project_path fs1 fs ->
  grown project_path fs1 (fst (fst (save_branches project_path bs fs)))
  /\ snd (fst (save_branches project_path bs fs))
     = map (fun b => set_image_paths (copied_names fs1 project_path b) b) bs
  /\ snd (save_branches project_path bs fs)
     = flat_map (copy_warnings fs1 project_path) bs.
Proof.
  revert fs. induction bs as [|b rest IH]; intros fs Hg;
    [split; [exact Hg | split; reflexivity]|].
  cbn [save_branches].
  destruct (copy_images_outcome project_path fs1 (images b) fs Hg) as (Hg1 & Hn & Hm).
  destruct (copy_images project_path (images b) fs) as [[fs' names] ms1]. cbn in Hg1, Hn, Hm.
  destruct (IH fs' Hg1) as (Hg2 & Hbs & Hms).
  destruct (save_branches project_path rest fs') as [[fs2 rest'] ms2].
  cbn [fst snd map flat_map] in *. subst.
  split; [exact Hg2 | split; reflexivity].
Qed.

End CopyFacts.

Section SaveFacts.
Import PyStr Fs Model Handlers Persistence Outcome.
Context `{P : Platform}.

(** C6. When the project directory exists already, save shows the
    "Project already exists" error and hands the file system back as it
    got it: nothing is copied, no manifest is written. *)
Theorem save_existing_directory_untouched (answer : option string)
    (fs : FileSystem) (a : App) (project_name : string) (a2 : App) :
  resolve_project_name answer (persist_current_prompt a) = Some (project_name, a2) ->
  exists_ fs (OsPath.join2 _desktop_scanner_folder project_name) = true ->
  save_project answer fs a = (a2, fs, [SaveErrorExists]).
Proof. intros Hname Hex. unfold save_project. now rewrite Hname, Hex. Qed.

(** The whole of a save into a directory that could be made. *)
Lemma save_project_outcome (answer : option string) (fs : FileSystem) (a : App)
    (project_name : string) (a2 : App) (fs1 : FileSystem) :
  resolve_project_name answer (persist_current_prompt a) = Some (project_name, a2) ->
  let project_path := OsPath.join2 _desktop_scanner_folder project_name in
  exists_ fs project_path = false ->
  makedirs fs project_path = Some fs1 ->
  let bs := map (fun b => set_image_paths (copied_names fs1 project_path b) b) (branches a2) in
  let warnings := flat_map (copy_warnings fs1 project_path) (branches a2) in
  let json_path := OsPath.join2 project_path "project.json" in
  exists fs2,
    grown project_path fs1 fs2
    /\ save_project answer fs a =
       if writable fs1 json_path
       then (with_branches bs a2,
             mkFs (<[json_path := json_dump (project_json (current_story a2) bs)]> (files fs2))
                  (dirs fs2) (unreadable fs2) (unwritable fs2),
             warnings ++ [SaveSuccessful project_path])
       else (with_branches bs a2, fs2, warnings ++ [SaveErrorManifest]).
Proof.
  intros Hname project_path Hex Hmk bs warnings json_path.
  unfold save_project. rewrite Hname. fold project_path. rewrite Hex, Hmk.
  destruct (save_branches_outcome project_path fs1 (branches a2) fs1 (grown_refl _ _))
    as (Hg & Hbs & Hws).
  destruct (save_branches project_path (branches a2) fs1) as [[fs2 bs'] ws].
  cbn [fst snd] in Hg, Hbs, Hws. subst bs' ws. fold bs warnings json_path.
  exists fs2. split; [exact Hg|].
  unfold write_bytes. rewrite (writable_grown _ _ _ json_path Hg).
  destruct (writable fs1 json_path); reflexivity.
Qed.


End SaveFacts.

(** ** Loading *)

Section LoadFacts.
Import PyStr Fs Model Handlers Persistence Outcome.
Context `{P : Platform}.


Lemma makedirs_reads (fs : FileSystem) (p : string) (fs1 : FileSystem) :
  makedirs fs p = Some fs1 -> forall q, read_bytes fs1 q = read_bytes fs q.
Proof.
  unfold makedirs. destruct (decide (p ∈ dirs fs)).
  - now intros [= <-].
  - destruct (decide _); [discriminate|]. now intros [= <-].
Qed.

Lemma attach_image_branches (branch_item branch : nat) (path : string)
    (img_bytes : list byte) (image_counter : nat) (a : App) :
  branches (attach_image branch_item branch path img_bytes image_counter a)
  = alter (append_image (mkImage path img_bytes (_create_thumbnail img_bytes (24, 24))))
          branch (branches a).
Proof.
  unfold attach_image. destruct (_create_thumbnail img_bytes (24, 24)); reflexivity.
Qed.

Lemma add_images_nil (b : BranchData) : add_images [] b = b.
Proof. destruct b. unfold add_images. cbn. now rewrite app_nil_r. Qed.

Lemma add_images_append (img : ImageData) (l : list ImageData) (b : BranchData) :
  add_images l (append_image img b) = add_images (img :: l) b.
Proof. unfold add_images, append_image. cbn. now rewrite <- app_assoc. Qed.



(** The fields the loops over branches and images leave alone. *)
Lemma attach_image_kept (branch_item branch : nat) (path : string)
    (img_bytes : list byte) (image_counter : nat) (a : App) :
  let a' := attach_image branch_item branch path img_bytes image_counter a in
  story_text a' = story_text a /\ prompt_text a' = prompt_text a
  /\ current_branch a' = current_branch a /\ project_name_var a' = project_name_var a.
Proof.
  unfold attach_image. destruct (_create_thumbnail img_bytes (24, 24)); cbn; auto.
Qed.





End LoadFacts.

Section RoundTripFacts.
Import PyStr Fs Model Handlers Persistence Outcome.
Context `{P : Platform}.






Lemma resolve_project_name_kept (answer : option string) (a : App)
    (project_name : string) (a2 : App) :
  resolve_project_name answer a = Some (project_name, a2) ->
  branches a2 = branches a /\ story_text a2 = story_text a
  /\ is_empty project_name = false.
Proof.
  unfold resolve_project_name.
  destruct (is_empty (strip (project_name_var a))) eqn:E.
  - destruct answer as [asked|]; [|discriminate].
    destruct (is_empty asked) eqn:E'; [discriminate|].
    intros [= <- <-]. auto.
  - intros [= <- <-]. auto.
Qed.


End RoundTripFacts.

Section PersistenceTheorems.
Import PyStr Fs Model Handlers Persistence Outcome.
Context `{P : Platform}.

(** C10. When the chosen file cannot be read, or what is read is no JSON,
    load shows the "Load Error" box and leaves branches, images, tree,
    selection, node mapping, story and prompt as they were (the project
    name entry alone has been set from the path before); and whenever load
    changes any of these, the manifest has been read and parsed. *)
Theorem load_failure_keeps_project :
  (forall (filename : string) (fs : FileSystem) (a : App),
      filename <> "" ->
      is_Some (makedirs fs _desktop_scanner_folder) ->
      (read_bytes fs filename = None
       \/ exists data, read_bytes fs filename = Some data /\ json_load data = None) ->
      let a' := fst (fst (load_project filename fs a)) in
      snd (load_project filename fs a) = [LoadError]
      /\ a' = with_project_name_var (OsPath.basename (OsPath.dirname filename)) a
      /\ branches a' = branches a /\ node_data a' = node_data a
      /\ tree a' = tree a /\ current_branch a' = current_branch a
      /\ story_text a' = story_text a /\ prompt_text a' = prompt_text a
      /\ image_refs a' = image_refs a /\ image_preview a' = image_preview a)
  /\ (forall (filename : string) (fs : FileSystem) (a : App),
        let a' := fst (fst (load_project filename fs a)) in
        (branches a' <> branches a \/ node_data a' <> node_data a
         \/ tree a' <> tree a \/ current_branch a' <> current_branch a
         \/ story_text a' <> story_text a \/ prompt_text a' <> prompt_text a
         \/ image_refs a' <> image_refs a \/ image_preview a' <> image_preview a) ->
        exists data j, read_bytes fs filename = Some data /\ json_load data = Some j).
Proof.
  split.
  - intros filename fs a Hne [fs1 Hmk] Hfail. cbv zeta. unfold load_project.
    rewrite Hmk. destruct (is_empty filename) eqn:E;
      [apply is_empty_true in E; contradiction|].
    rewrite (makedirs_reads _ _ _ Hmk).
    destruct Hfail as [Hr|(data & Hr & Hj)]; rewrite Hr; [|rewrite Hj];
      cbn; repeat split; reflexivity.
  - intros filename fs a. cbv zeta. unfold load_project.
    destruct (makedirs fs _desktop_scanner_folder) as [fs1|] eqn:Hmk;
      [|cbn; intros H; decompose [or] H; congruence].
    destruct (is_empty filename); [cbn; intros H; decompose [or] H; congruence|].
    rewrite (makedirs_reads _ _ _ Hmk).
    destruct (read_bytes fs filename) as [data|];
      [|cbn; intros H; decompose [or] H; congruence].
    destruct (json_load data) as [j|] eqn:Hj;
      [|cbn; intros H; decompose [or] H; congruence].
    intros _. eauto.
Qed.


End PersistenceTheorems.

(** ** The limit of two images *)

Section LimitFacts.
Import PyStr Fs Model Handlers Persistence Outcome Session.
Context `{P : Platform}.












End LimitFacts.

Section LimitTheorem.
Import PyStr Fs Model Handlers Persistence Outcome Session.
Context `{P : Platform}.


End LimitTheorem.

(** ** References stay valid *)

Section ReferenceFacts.
Import PyStr Fs Model Handlers Persistence Outcome Session.
Context `{P : Platform}.

(** Branches may be added and images appended: references stay valid. *)
Lemma refs_valid_grow (a a' : App) :
  refs_valid a ->
  current_branch a' = current_branch a -> node_data a' = node_data a ->
  length (branches a) <= length (branches a') ->
  (forall bi b, branches a !! bi = Some b ->
     exists b', branches a' !! bi = Some b' /\ length (images b) <= length (images b')) ->
  refs_valid a'.
Proof.
  intros (H1 & H2 & H3) Hc Hn Hlen Hb. repeat split.
  - intros cur E. rewrite Hc in E. specialize (H1 cur E). lia.
  - intros item bi E. rewrite Hn in E. specialize (H2 item bi E). lia.
  - intros item bi i E. rewrite Hn in E. destruct (H3 item bi i E) as (b & Eb & Hi).
    destruct (Hb bi b Eb) as (b' & Eb' & Hl). exists b'. split; [exact Eb' | lia].
Qed.

Lemma refs_valid_alter (f : BranchData -> BranchData) (bi : nat) (a : App) :
  (forall b, length (images b) <= length (images (f b))) ->
  refs_valid a -> refs_valid (with_branches (alter f bi (branches a)) a).
Proof.
  intros Hf H. apply (refs_valid_grow a); try reflexivity; [exact H | |].
  - cbn. now rewrite length_alter.
  - intros bj b E. cbn. destruct (decide (bi = bj)) as [<-|Hne].
    + exists (f b). rewrite list_lookup_alter_eq, E. split; [reflexivity | apply Hf].
    + exists b. rewrite list_lookup_alter_ne by exact Hne. split; [exact E | lia].
Qed.

Lemma persist_current_prompt_refs (a : App) :
  refs_valid a -> refs_valid (persist_current_prompt a).
Proof.
  intros H. unfold persist_current_prompt. destruct (current_branch a); [|exact H].
  apply refs_valid_alter; [|exact H]. intros b. cbn. lia.
Qed.

Lemma refs_valid_current (c : option nat) (a : App) :
  (forall cur, c = Some cur -> cur < length (branches a)) ->
  refs_valid a -> refs_valid (with_current_branch c a).
Proof. intros Hc (_ & H2 & H3). repeat split; assumption. Qed.

Lemma refs_valid_irrelevant (a a' : App) :
  branches a' = branches a -> node_data a' = node_data a ->
  current_branch a' = current_branch a -> refs_valid a -> refs_valid a'.
Proof. intros Hb Hn Hc. unfold refs_valid. now rewrite Hb, Hn, Hc. Qed.

Lemma branch_of_item_valid (a : App) (item bi : nat) (b : BranchData) :
  branch_of_item a item = Some (bi, b) -> branches a !! bi = Some b.
Proof.
  unfold branch_of_item. destruct (node_data a !! item) as [[bi'|]|]; try discriminate.
  destruct (branches a !! bi') eqn:E; [|discriminate]. now intros [= <- <-].
Qed.

Lemma on_tree_select_refs (a : App) : refs_valid a -> refs_valid (fst (on_tree_select a)).
Proof.
  intros H. apply persist_current_prompt_refs in H. unfold on_tree_select.
  destruct (_get_selected_item (persist_current_prompt a)) as [selected|]; [|exact H].
  cbv zeta.
  set (a2 := match branch_of_item _ _ with Some _ => _ | None => _ end).
  assert (H2 : refs_valid a2).
  { subst a2. destruct (branch_of_item _ _) as [[bi b]|] eqn:E.
    - apply branch_of_item_valid in E.
      unfold update_prompt_text_from_branch, set_current_branch. cbn. rewrite E.
      apply (refs_valid_irrelevant (with_current_branch (Some bi) (persist_current_prompt a)));
        try reflexivity.
      apply refs_valid_current; [|exact H].
      intros cur [= <-]. apply lookup_lt_is_Some. eauto.
    - apply (refs_valid_irrelevant (with_current_branch None (persist_current_prompt a)));
        try reflexivity.
      apply refs_valid_current; [discriminate | exact H]. }
  destruct (match node_data a2 !! selected with Some (ImageRef _ _) => _ | _ => _ end)
    as [img|].
  - destruct (show_image_preview_keeps (image_bytes img) a2) as (K1 & K2 & _ & K4).
    now apply (refs_valid_irrelevant a2).
  - exact H2.
Qed.

Lemma add_branch_refs (answer : option string) (draw : nat) (a : App) :
  refs_valid a -> refs_valid (add_branch answer draw a).
Proof.
  intros H. unfold add_branch. destruct answer as [nm|]; [|exact H].
  destruct (is_empty nm); [exact H|].
  unfold update_prompt_text_from_branch, set_current_branch. cbn.
  rewrite lookup_app_r by lia. rewrite Nat.sub_diag. cbn.
  destruct H as (H1 & H2 & H3). repeat split; cbn.
  - intros cur [= <-]. rewrite length_app. cbn. lia.
  - intros item bi E. rewrite length_app. cbn.
    apply lookup_insert_Some in E as [[_ [= <-]]|[_ E]]; [lia|].
    specialize (H2 item bi E). lia.
  - intros item bi i E.
    apply lookup_insert_Some in E as [[_ [=]]|[_ E]].
    destruct (H3 item bi i E) as (b & Eb & Hi). exists b.
    split; [|exact Hi]. rewrite lookup_app_l; [exact Eb|].
    apply lookup_lt_is_Some. eauto.
Qed.

Lemma attach_image_refs (branch_item branch : nat) (path : string)
    (img_bytes : list byte) (image_counter : nat) (a : App) :
  branch < length (branches a) -> refs_valid a ->
  refs_valid (attach_image branch_item branch path img_bytes image_counter a)
  /\ length (branches (attach_image branch_item branch path img_bytes image_counter a))
     = length (branches a).
Proof.
  intros Hlt H.
  destruct (lookup_lt_is_Some_2 _ _ Hlt) as [b Eb].
  split; [|rewrite attach_image_branches; apply length_alter].
  set (img := mkImage path img_bytes (_create_thumbnail img_bytes (24, 24))).
  pose proof (refs_valid_alter (append_image img) branch a) as Halt.
  destruct Halt as (H1 & H2 & H3); [intros x; cbn; rewrite length_app; lia | exact H |].
  cbn in H1, H2, H3.
  unfold attach_image. rewrite Eb. fold img.
  destruct (_create_thumbnail img_bytes (24, 24)); cbn; (repeat split; cbn;
    [ exact H1
    | intros item bi E; apply lookup_insert_Some in E as [[_ [=]]|[_ E]]; eauto
    | intros item bi i E; apply lookup_insert_Some in E as [[_ [= <- <-]]|[_ E]];
      [ exists (append_image img b); rewrite list_lookup_alter_eq, Eb; split;
        [reflexivity | cbn; rewrite length_app; cbn; lia]
      | eauto ] ]).
Qed.

Lemma upload_loop_refs (fs : FileSystem) (branch_item branch : nat)
    (filenames : list string) (image_counter : nat) (a : App) :
  branch < length (branches a) -> refs_valid a ->
  refs_valid (fst (upload_loop fs branch_item branch filenames image_counter a)).
Proof.
  revert image_counter a.
  induction filenames as [|fname rest IH]; intros image_counter a Hlt H; [exact H|].
  cbn [upload_loop]. destruct (read_bytes fs fname) as [img_bytes|].
  - destruct (attach_image_refs branch_item branch fname img_bytes image_counter a Hlt H)
      as (H' & Hlen).
    apply IH; [now rewrite Hlen | exact H'].
  - specialize (IH image_counter a Hlt H).
    destruct (upload_loop fs branch_item branch rest image_counter a). exact IH.
Qed.

Lemma upload_images_refs (filenames : list string) (fs : FileSystem) (a : App) :
  refs_valid a -> refs_valid (fst (upload_images filenames fs a)).
Proof.
  intros H. unfold upload_images.
  destruct (_get_selected_item a) as [selected|]; [|exact H].
  destruct (branch_of_item a _) as [[bi b]|] eqn:Hbr; [|exact H].
  destruct filenames as [|f fl]; [exact H|].
  destruct (2 <? _); [exact H|].
  apply branch_of_item_valid in Hbr.
  pose proof (upload_loop_refs fs (_get_branch_item_for (tree a) selected) bi (f :: fl)
                (length (images b) + 1) a) as Hl.
  destruct (upload_loop fs _ bi (f :: fl) _ a) as [a1 ms]. cbn [fst] in *.
  apply (refs_valid_irrelevant a1); try reflexivity.
  apply Hl; [|exact H]. apply lookup_lt_is_Some. eauto.
Qed.

Lemma save_project_refs (answer : option string) (fs : FileSystem) (a : App) :
  refs_valid a -> refs_valid (fst (fst (save_project answer fs a))).
Proof.
  intros H. apply persist_current_prompt_refs in H. unfold save_project.
  destruct (resolve_project_name answer (persist_current_prompt a)) as [[pn a2]|] eqn:Hn;
    [|exact H].
  assert (H2 : refs_valid a2).
  { revert Hn. unfold resolve_project_name.
    destruct (is_empty (strip _)).
    - destruct answer as [asked|]; [|discriminate].
      destruct (is_empty asked); [discriminate|]. intros [= <- <-].
      now apply (refs_valid_irrelevant (persist_current_prompt a)).
    - now intros [= <- <-]. }
  destruct (exists_ fs _); [exact H2|].
  destruct (makedirs fs _) as [fs1|]; [|exact H2].
  match goal with
  | |- context [save_branches ?pp ?bs ?f] =>
      destruct (save_branches_outcome pp f bs f (grown_refl _ _)) as (_ & Hbs & _);
      destruct (save_branches pp bs f) as [[fs2 bs'] ws]
  end.
  cbn [fst snd] in Hbs. subst bs'.
  assert (Hres : refs_valid
            (with_branches
               (map (fun b => set_image_paths
                       (copied_names fs1 (OsPath.join2 _desktop_scanner_folder pn) b) b)
                    (branches a2)) a2)).
  { apply (refs_valid_grow a2); try reflexivity; [exact H2 | cbn; now rewrite length_map |].
    intros bi b E. cbn. rewrite list_lookup_fmap, E. cbn. eexists. split; [reflexivity|].
    cbn. lia. }
  destruct (write_bytes fs2 _ _); exact Hres.
Qed.

Lemma load_images_refs (project_path : string) (fs : FileSystem)
    (branch_item branch : nat) (paths : list string) (image_counter : nat) (a : App) :
  branch < length (branches a) -> refs_valid a ->
  refs_valid (load_images project_path fs branch_item branch paths image_counter a).
Proof.
  revert image_counter a.
  induction paths as [|n rest IH]; intros image_counter a Hlt H; [exact H|].
  cbn [load_images].
  destruct (negb (exists_ fs _)); [now apply IH|].
  destruct (read_bytes fs _) as [img_bytes|]; [|now apply IH].
  destruct (attach_image_refs branch_item branch (OsPath.join2 project_path n)
              img_bytes image_counter a Hlt H) as (H' & Hlen).
  apply IH; [now rewrite Hlen | exact H'].
Qed.

Lemma load_branch_refs (project_path : string) (fs : FileSystem)
    (branch_name branch_prompt : string) (paths : list string) (a : App) :
  refs_valid a ->
  refs_valid (load_branch project_path fs branch_name branch_prompt paths a).
Proof.
  intros (H1 & H2 & H3). unfold load_branch. cbn -[load_images].
  match goal with
  | |- context [load_images ?pp ?f ?bi ?b ?ps ?k ?x] =>
      pose proof (load_images_refs pp f bi b ps k x) as Hl;
      set (a3 := load_images pp f bi b ps k x) in *
  end.
  apply (refs_valid_irrelevant a3); try reflexivity.
  apply Hl; [cbn; rewrite length_app; cbn; lia|].
  repeat split; cbn.
  - intros cur E. specialize (H1 cur E). rewrite length_app. lia.
  - intros item bi E. rewrite length_app. cbn.
    apply lookup_insert_Some in E as [[_ [= <-]]|[_ E]]; [lia|].
    specialize (H2 item bi E). lia.
  - intros item bi i E.
    apply lookup_insert_Some in E as [[_ [=]]|[_ E]].
    destruct (H3 item bi i E) as (b & Eb & Hi). exists b.
    split; [|exact Hi]. rewrite lookup_app_l; [exact Eb|].
    apply lookup_lt_is_Some. eauto.
Qed.

Lemma load_branches_refs (project_path : string) (fs : FileSystem)
    (l : list json) (a : App) :
  refs_valid a -> refs_valid (fst (load_branches project_path fs l a)).
Proof.
  revert a. induction l as [|j l IH]; intros a H; [exact H|].
  cbn [load_branches]. destruct j; try exact H.
  destruct (get_str m "Name" "Branch") as [nm|]; [|exact H].
  destruct (get_str m "Prompt" "") as [pr|]; [|exact H].
  destruct (get_str_list m "ImagePaths") as [paths|]; [|exact H].
  apply IH. now apply load_branch_refs.
Qed.

Lemma refs_valid_cleared (a : App) : refs_valid (clear_project_data a).
Proof.
  repeat split; cbn; discriminate.
Qed.

Lemma populate_refs (project_path : string) (fs : FileSystem) (j : json) (a : App) :
  refs_valid (fst (populate project_path fs j a)).
Proof.
  pose proof (refs_valid_cleared a) as H. unfold populate.
  destruct j; try exact H.
  destruct (get_str m "Story" "") as [story|]; [|exact H].
  assert (H' : refs_valid (with_story_text (story +:+ story_text (clear_project_data a))
                            (clear_project_data a)))
    by now apply (refs_valid_irrelevant (clear_project_data a)).
  destruct (dict_get m "Branches") as [bj|]; [|exact H'].
  destruct bj as [| | |s|l|m']; try exact H'.
  - destruct s; exact H'.
  - now apply load_branches_refs.
  - destruct m'; exact H'.
Qed.

Lemma load_project_refs (filename : string) (fs : FileSystem) (a : App) :
  refs_valid a -> refs_valid (fst (fst (load_project filename fs a))).
Proof.
  intros H. unfold load_project.
  destruct (makedirs fs _) as [fs1|]; [|exact H].
  destruct (is_empty filename); [exact H|].
  assert (H' : refs_valid (with_project_name_var
                             (OsPath.basename (OsPath.dirname filename)) a))
    by now apply (refs_valid_irrelevant a).
  destruct (read_bytes fs1 filename) as [data|]; [|exact H'].
  destruct (json_load data) as [j|]; [|exact H'].
  match goal with
  | |- context [populate ?pp ?f ?jj ?x] =>
      pose proof (populate_refs pp f jj x) as Hp; destruct (populate pp f jj x)
  end.
  exact Hp.
Qed.

(** In every state a session reaches from the start, the current branch
    and the values of [node_data] point into [branches]. *)
Lemma reachable_refs_valid (steps : list (event * FileSystem)) :
  refs_valid (run steps init).
Proof.
  assert (H0 : refs_valid init).
  { repeat split; cbn; discriminate. }
  revert H0. generalize init. induction steps as [|[e fs] rest IH]; intros a H; [exact H|].
  cbn [run]. apply IH. destruct e; cbn [handle fst].
  - now apply add_branch_refs.
  - pose proof (upload_images_refs filenames fs a H) as H'.
    destruct (upload_images filenames fs a). exact H'.
  - unfold select.
    match goal with
    | |- context [on_tree_select ?x] =>
        pose proof (on_tree_select_refs x) as H'; destruct (on_tree_select x)
    end.
    apply H'. now apply (refs_valid_irrelevant a).
  - pose proof (on_tree_select_refs a H) as H'. destruct (on_tree_select a). exact H'.
  - now apply (refs_valid_irrelevant a).
  - now apply (refs_valid_irrelevant a).
  - now apply (refs_valid_irrelevant a).
  - now apply save_project_refs.
  - now apply load_project_refs.
  - apply refs_valid_cleared.
Qed.


End ReferenceFacts.

(** ** The properties on the sample data *)

Section Samples.
Import PyStr Fs Model Handlers Persistence Outcome Session Examples.

#[local] Abbreviation CJ := CompactJson.platform.



Lemma upload_over_limit_rejected_witness :
  fst (upload_images (P := CJ) ["/img/a.png"] disk two_images) = two_images
  /\ snd (upload_images (P := CJ) ["/img/a.png"] disk two_images) = [ImageLimit].
Proof.
  edestruct (upload_over_limit_rejected (P := CJ) disk two_images ["/img/a.png"] 0 0)
    as (H1 & H2 & _).
  - reflexivity.
  - vm_compute. reflexivity.
  - simpl. lia.
  - split; [exact H1 | apply H2; discriminate].
Defined.


Lemma save_existing_directory_untouched_witness :
  save_project (P := CJ) (Some "old") disk_with_old two_images
  = (with_project_name_var "old" (persist_current_prompt two_images),
     disk_with_old, [SaveErrorExists]).
Proof.
  apply (save_existing_directory_untouched (P := CJ) (Some "old") disk_with_old two_images "old").
  - reflexivity.
  - vm_compute. reflexivity.
Defined.


Lemma load_failure_keeps_project_witness :
  snd (load_project (P := CJ) "/home/user/Desktop/Scanner/bad/project.json"
         disk_garbled two_images) = [LoadError]
  /\ branches (fst (fst (load_project (P := CJ) "/home/user/Desktop/Scanner/bad/project.json"
                           disk_garbled two_images)))
     = branches two_images.
Proof.
  destruct (proj1 (load_failure_keeps_project (P := CJ))
              "/home/user/Desktop/Scanner/bad/project.json" disk_garbled two_images)
    as (H1 & _ & H2 & _).
  - discriminate.
  - eexists. vm_compute. reflexivity.
  - right. exists [x7b; x7b]. split; vm_compute; reflexivity.
  - split; [exact H1 | exact H2].
Defined.


End Samples.

(** * Further properties of the code *)

(** ** More on strings *)

Section MoreStringFacts.
Import PyStr.

Lemma is_empty_lstrip (p : ascii -> bool) (s : string) :
  is_empty (lstrip_by p s) = all_chars p s.
Proof.
  induction s as [|c s IH]; [reflexivity|]. simpl.
  destruct (p c); [exact IH | reflexivity].
Qed.

Lemma is_empty_rstrip (p : ascii -> bool) (s : string) :
  is_empty (rstrip_by p s) = all_chars p s.
Proof.
  induction s as [|c s IH]; [reflexivity|]. simpl. rewrite <- IH.
  destruct (p c && is_empty (rstrip_by p s)); reflexivity.
Qed.

Lemma all_chars_lstrip_same (p : ascii -> bool) (s : string) :
  all_chars p (lstrip_by p s) = all_chars p s.
Proof.
  induction s as [|c s IH]; [reflexivity|]. simpl.
  destruct (p c) eqn:E; [exact IH | simpl; now rewrite E].
Qed.

Lemma all_chars_rstrip_same (p : ascii -> bool) (s : string) :
  all_chars p (rstrip_by p s) = all_chars p s.
Proof.
  induction s as [|c s IH]; [reflexivity|]. simpl.
  destruct (p c && is_empty (rstrip_by p s)) eqn:E.
  - rewrite is_empty_rstrip in E. now rewrite E.
  - simpl. now rewrite IH.
Qed.

(** [not s.strip()] says that [s] holds whitespace only. *)
Lemma is_empty_strip (s : string) : is_empty (strip s) = all_chars is_space s.
Proof. unfold strip. now rewrite is_empty_lstrip, all_chars_rstrip_same. Qed.

Lemma all_chars_strip_same (s : string) :
  all_chars is_space (strip s) = all_chars is_space s.
Proof. unfold strip. now rewrite all_chars_lstrip_same, all_chars_rstrip_same. Qed.

Lemma split_on_pieces (sep : ascii) (s : string) :
  Forall (fun f => all_chars (fun c => negb (Ascii.eqb c sep)) f = true) (split_on sep s).
Proof.
  induction s as [|c s IH]; simpl; [repeat constructor|].
  destruct (Ascii.eqb c sep) eqn:E.
  - constructor; [reflexivity | exact IH].
  - destruct (split_on sep s) as [|f fs]; [repeat constructor; simpl; now rewrite E|].
    inversion IH; subst. constructor; [simpl; now rewrite E | assumption].
Qed.

Lemma split_on_line (sep : ascii) (l r : string) :
  all_chars (fun c => negb (Ascii.eqb c sep)) l = true ->
  split_on sep (l +:+ String sep r) = l :: split_on sep r.
Proof.
  induction l as [|c l IH]; intros H.
  - simpl. now rewrite Ascii.eqb_refl.
  - simpl in H. apply andb_true_iff in H as [Hc Hl]. apply negb_true_iff in Hc.
    simpl. rewrite Hc, (IH Hl). reflexivity.
Qed.

Lemma split_on_join (sep : ascii) (ls : list string) :
  Forall (fun l => all_chars (fun c => negb (Ascii.eqb c sep)) l = true) ls ->
  ls <> [] ->
  split_on sep (join (String sep "") ls +:+ String sep "") = ls ++ [""].
Proof.
  induction ls as [|l ls IH]; intros HF Hne; [congruence|].
  inversion HF as [|? ? Hl HF']; subst.
  destruct ls as [|l' ls].
  - simpl. now rewrite split_on_line.
  - change (join (String sep "") (l :: l' :: ls))
      with (l +:+ String sep "" +:+ join (String sep "") (l' :: ls)).
    rewrite !append_assoc. cbn [String.append].
    rewrite split_on_line by assumption.
    cbn [app]. f_equal. apply IH; [assumption | congruence].
Qed.

Lemma all_chars_join (p : ascii -> bool) (sep : string) (ls : list string) :
  all_chars p sep = true ->
  Forall (fun l => all_chars p l = true) ls -> all_chars p (join sep ls) = true.
Proof.
  intros Hs. induction ls as [|l ls IH]; intros HF; [reflexivity|].
  inversion HF; subst.
  destruct ls as [|l' ls]; [assumption|].
  change (join sep (l :: l' :: ls)) with (l +:+ sep +:+ join sep (l' :: ls)).
  rewrite !all_chars_append, Hs, IH by assumption.
  now rewrite andb_true_r.
Qed.

Lemma all_chars_impl (p q : ascii -> bool) (s : string) :
  (forall c, p c = true -> q c = true) -> all_chars p s = true -> all_chars q s = true.
Proof.
  intros H. induction s as [|c s IH]; [reflexivity|]. simpl.
  intros [Hc Hs]%andb_true_iff. now rewrite (H c Hc), IH.
Qed.

Lemma append_nonempty_r (s t : string) : is_empty t = false -> is_empty (s +:+ t) = false.
Proof. intros H. destruct s; [exact H | reflexivity]. Qed.

End MoreStringFacts.

(** ** More on the formatter *)

Section MoreFormatterFacts.
Import PyStr Formatter.

Lemma filter_bool_nil {A} (q : A -> bool) (l : list A) :
  filter (fun x => q x) l = [] <-> Forall (fun x => q x = false) l.
Proof.
  induction l as [|x l IH]; [split; constructor|].
  rewrite filter_cons. destruct (q x) eqn:E; simpl.
  - split; [discriminate | intros H; inversion H; congruence].
  - rewrite IH. split; [now constructor | intros H; now inversion H].
Qed.

Lemma format_of_no_lines (content : string) :
  kept_lines content = [] -> _format_csv_like_text content = "".
Proof. intros H. unfold _format_csv_like_text. now rewrite H. Qed.

Lemma format_of_lines (content : string) :
  kept_lines content <> [] ->
  _format_csv_like_text content
  = join NL (map format_line (kept_lines content)) +:+ NL.
Proof.
  intros H. unfold _format_csv_like_text.
  destruct (kept_lines content); [congruence | reflexivity].
Qed.

(** X1. The output is empty exactly when the input has no line that is not
    blank: the empty input, and any input of blank lines only, give the
    empty string and not a newline. *)
Theorem format_empty_iff_blank (content : string) :
  _format_csv_like_text content = ""
  <-> Forall (fun ln => nonblank ln = false) (splitlines content).
Proof.
  rewrite <- filter_bool_nil. fold (kept_lines content). split.
  - intros H. destruct (kept_lines content) as [|l ls] eqn:E; [reflexivity|].
    rewrite format_of_lines in H by (rewrite E; discriminate).
    apply (f_equal is_empty) in H. now rewrite append_nonempty_r in H.
  - apply format_of_no_lines.
Qed.

Lemma format_all_chars (p : ascii -> bool) (content : string) :
  p space = true -> p LF = true ->
  Forall (fun ln => Forall (fun f => all_chars p f = true) (fields ln))
         (kept_lines content) ->
  all_chars p (_format_csv_like_text content) = true.
Proof.
  intros Hsp Hlf HF.
  destruct (kept_lines content) as [|l ls] eqn:E;
    [now rewrite format_of_no_lines|].
  rewrite format_of_lines by (rewrite E; discriminate). rewrite E in *.
  rewrite all_chars_append. apply andb_true_iff. split; [|simpl; now rewrite Hlf].
  apply all_chars_join; [simpl; now rewrite Hlf|].
  apply Forall_map. eapply Forall_impl; [exact HF|].
  intros ln Hln. unfold format_line. apply all_chars_join_empty.
  apply Forall_map. eapply Forall_impl; [exact Hln|].
  intros f Hf. unfold ljust. cbv beta.
  rewrite all_chars_append, Hf. now rewrite all_chars_spaces.
Qed.

Lemma fields_no_comma (ln : string) :
  Forall (fun f => all_chars (fun c => negb (Ascii.eqb c comma)) f = true) (fields ln).
Proof.
  unfold fields. apply Forall_map.
  apply (Forall_filter_bool
           (fun f => all_chars (fun c => negb (Ascii.eqb c comma)) (strip f) = true)).
  eapply Forall_impl; [apply split_on_pieces|].
  intros f Hf. now apply all_chars_strip.
Qed.

(** X2. No comma is left in the output; the only line boundary in it is the
    newline that ends each of its lines; and an output that is not empty
    ends with a newline. *)
Theorem format_output_characters (content : string) :
  all_chars (fun c => negb (Ascii.eqb c comma)) (_format_csv_like_text content) = true
  /\ all_chars (fun c => negb (is_linebreak c) || Ascii.eqb c LF)
       (_format_csv_like_text content) = true
  /\ (_format_csv_like_text content = ""
      \/ exists body, _format_csv_like_text content = body +:+ NL).
Proof.
  split; [|split].
  - apply format_all_chars; [reflexivity | reflexivity |].
    apply Forall_forall. intros ln _. apply fields_no_comma.
  - apply format_all_chars; [reflexivity | reflexivity |].
    eapply Forall_impl; [apply kept_lines_no_break|].
    intros ln Hln. eapply Forall_impl; [apply fields_no_break; exact Hln|].
    intros f Hf. eapply all_chars_impl; [|exact Hf].
    intros c Hc. cbv beta in Hc. now rewrite Hc.
  - destruct (kept_lines content) as [|l ls] eqn:E.
    + left. now apply format_of_no_lines.
    + right. eexists. apply format_of_lines. rewrite E. discriminate.
Qed.

(** Every field holds a character that is no whitespace. *)
Lemma fields_not_blank (ln : string) :
  Forall (fun f => all_chars is_space f = false) (fields ln).
Proof.
  unfold fields. apply Forall_map.
  apply Forall_forall. intros f Hf.
  apply list_elem_of_filter in Hf as [Hf _].
  rewrite all_chars_strip_same, <- is_empty_strip.
  destruct (String.eqb_spec (strip f) "") as [E|E]; [now simpl in Hf|].
  destruct (strip f); [congruence | reflexivity].
Qed.

Lemma format_line_not_blank (ln : string) :
  fields ln <> [] -> all_chars is_space (format_line ln) = false.
Proof.
  intros Hne. unfold format_line. pose proof (fields_not_blank ln) as HF.
  destruct (fields ln) as [|f fs]; [congruence|].
  inversion HF as [|? ? Hf _]; subst.
  destruct fs as [|f' fs].
  - simpl. unfold ljust. now rewrite all_chars_append, Hf.
  - change (join "" (map (ljust 15) (f :: f' :: fs)))
      with (ljust 15 f +:+ "" +:+ join "" (map (ljust 15) (f' :: fs))).
    unfold ljust at 1. now rewrite !all_chars_append, Hf.
Qed.

(** The lines of a text box that holds the formatter's output are the
    output lines, and one empty line after them. *)
Lemma format_box_lines (content : string) :
  split_on LF (_format_csv_like_text content)
  = map format_line (kept_lines content) ++ [""].
Proof.
  destruct (kept_lines content) as [|l ls] eqn:E.
  - now rewrite format_of_no_lines.
  - rewrite format_of_lines by (rewrite E; discriminate). rewrite E.
    apply split_on_join; [|discriminate].
    rewrite <- E. apply Forall_map. eapply Forall_impl; [apply kept_lines_no_break|].
    intros ln Hln. apply format_line_no_break in Hln.
    eapply all_chars_impl; [|exact Hln].
    intros c Hc. cbv beta in Hc.
    destruct (Ascii.eqb_spec c LF) as [->|_]; [discriminate | reflexivity].
Qed.

End MoreFormatterFacts.

(** ** The quantities tab *)

Section QuantitiesFacts.
Import PyStr Fs Model Handlers Formatter Quantities.
Context `{P : Platform} `{T : TextFiles}.

Lemma read_file_exists (fs : FileSystem) (path content : string) :
  read_file fs path = Some content -> exists_ fs path = true.
Proof.
  unfold read_file. destruct (read_bytes fs path) as [data|] eqn:E; [|discriminate].
  intros _. unfold read_bytes in E. destruct (decide (path ∈ unreadable fs)); [discriminate|].
  apply bool_decide_eq_true. left. eauto.
Qed.

(** X3. Refresh and Load CSV put the formatted content of the file they
    read into the quantities box. When the file is not there or cannot be
    read, Refresh leaves the box empty and shows an error; Load CSV, also
    when its dialog is cancelled, leaves the box as it was. *)
Theorem quantities_box_after_read :
  (forall (fs : FileSystem) (content : string),
      read_file fs (OsPath.join2 _desktop_scanner_folder "quantities.txt") = Some content ->
      refresh_quantities fs = (_format_csv_like_text content, []))
  /\ (forall fs : FileSystem,
        read_file fs (OsPath.join2 _desktop_scanner_folder "quantities.txt") = None ->
        fst (refresh_quantities fs) = "" /\ snd (refresh_quantities fs) <> [])
  /\ (forall (filename : string) (fs : FileSystem) (quantities_text content : string),
        filename <> "" -> read_file fs filename = Some content ->
        load_quantities_csv filename fs quantities_text = (_format_csv_like_text content, []))
  /\ (forall (filename : string) (fs : FileSystem) (quantities_text : string),
        filename = "" \/ read_file fs filename = None ->
        fst (load_quantities_csv filename fs quantities_text) = quantities_text).
Proof.
  split; [|split; [|split]].
  - intros fs content H. unfold refresh_quantities.
    now rewrite (read_file_exists _ _ _ H), H.
  - intros fs H. unfold refresh_quantities. rewrite H.
    destruct (negb (exists_ fs _)); split; (reflexivity || discriminate).
  - intros filename fs q content Hne H. unfold load_quantities_csv. rewrite H.
    destruct (is_empty filename) eqn:E; [apply is_empty_true in E; contradiction|].
    reflexivity.
  - intros filename fs q [->|H]; unfold load_quantities_csv; [reflexivity|].
    rewrite H. now destruct (is_empty filename).
Qed.


(** X5. A click into a quantities box that holds the formatter's output:
    on a line that came from an input line with a field, the line without
    the padding at its end, and a newline, are put after what the prompt
    box holds; on the empty line of an input line without field, and below
    the last line, the click changes nothing. *)
Theorem click_on_formatted_line (content : string) (k : nat) (a : App) :
  on_quantities_click k (_format_csv_like_text content) a
  = match kept_lines content !! k with
    | Some ln =>
        match fields ln with
        | [] => a
        | _ :: _ =>
            with_prompt_text
              (prompt_text a +:+ rstrip_by is_space (format_line ln) +:+ NL) a
        end
    | None => a
    end.
Proof.
  unfold on_quantities_click, text_line.
  rewrite format_box_lines, nth_lookup.
  destruct (kept_lines content !! k) as [ln|] eqn:E.
  - rewrite lookup_app_l by (rewrite length_map; eapply lookup_lt_Some; exact E).
    rewrite list_lookup_fmap, E. cbn [fmap option_fmap option_map default]. unfold id.
    rewrite is_empty_strip, all_chars_rstrip_same.
    destruct (fields ln) as [|f fs] eqn:Ef.
    + unfold format_line. rewrite Ef. reflexivity.
    + rewrite format_line_not_blank by (rewrite Ef; discriminate). reflexivity.
  - apply lookup_ge_None in E.
    rewrite lookup_app_r by (rewrite length_map; exact E).
    destruct (k - length (map format_line (kept_lines content))) as [|n]; reflexivity.
Qed.

Lemma rstrip_by_subset (p q : ascii -> bool) (s : string) :
  (forall c, q c = true -> p c = true) ->
  rstrip_by q (rstrip_by p s) = rstrip_by p s.
Proof.
  intros Hqp. induction s as [|c s IH]; [reflexivity|]. simpl.
  destruct (p c && is_empty (rstrip_by p s)) eqn:E; [reflexivity|].
  simpl. rewrite IH.
  destruct (q c) eqn:Eq; [|reflexivity].
  rewrite (Hqp c Eq) in E. simpl in E. now rewrite E.
Qed.

Lemma rstrip_by_append_kept (q : ascii -> bool) (s l : string) :
  is_empty l = false -> rstrip_by q l = l -> rstrip_by q (s +:+ l) = s +:+ l.
Proof.
  intros Hl Hq. induction s as [|c s IH]; [exact Hq|].
  simpl. rewrite IH. now rewrite (append_nonempty_r s l Hl), andb_false_r.
Qed.

(** X6. What a click has put into the prompt box is stored without the
    newline the click added: after a click on a line that is not blank,
    the text that the next selection or save stores in the current branch
    is the content of the prompt box before the click followed by the
    clicked line without the whitespace at its end. A click on a blank
    line leaves the application as it is. *)
Theorem click_then_stored_prompt (k : nat) (quantities_text : string) (a : App) :
  let line_text := rstrip_by is_space (text_line quantities_text k) in
  (all_chars is_space (text_line quantities_text k) = false ->
   edited_prompt (on_quantities_click k quantities_text a) = prompt_text a +:+ line_text
   /\ branches (on_quantities_click k quantities_text a) = branches a
   /\ current_branch (on_quantities_click k quantities_text a) = current_branch a)
  /\ (all_chars is_space (text_line quantities_text k) = true ->
      on_quantities_click k quantities_text a = a).
Proof.
  cbv zeta. unfold on_quantities_click.
  rewrite is_empty_strip, all_chars_rstrip_same. split; intros H; rewrite H; [|reflexivity].
  split; [|split; reflexivity].
  unfold edited_prompt, rstrip_nl, text_get. cbn [prompt_text with_prompt_text].
  rewrite rstrip_by_snoc by apply Ascii.eqb_refl.
  unfold NL. rewrite <- append_assoc. rewrite rstrip_by_snoc by apply Ascii.eqb_refl.
  apply rstrip_by_append_kept.
  - rewrite <- (all_chars_rstrip_same is_space), <- is_empty_rstrip in H.
    now rewrite rstrip_by_idem in H.
  - apply rstrip_by_subset. intros c Hc.
    apply Ascii.eqb_eq in Hc. now subst c.
Qed.

End QuantitiesFacts.

(** ** Uploads *)

Section UploadFacts.
Import PyStr Fs Model Handlers Shape.
Context `{P : Platform}.

Lemma attach_image_preview (branch_item branch : nat) (path : string)
    (img_bytes : list byte) (image_counter : nat) (a : App) :
  image_preview (attach_image branch_item branch path img_bytes image_counter a)
  = image_preview a.
Proof.
  unfold attach_image. destruct (_create_thumbnail img_bytes (24, 24)); reflexivity.
Qed.

(** The loop over the chosen files appends the images of the files it can
    read, in their order, and shows an error for each of the others. *)
Lemma upload_loop_exact (fs : FileSystem) (branch_item branch : nat)
    (filenames : list string) (image_counter : nat) (a : App) :
  let r := upload_loop fs branch_item branch filenames image_counter a in
  branches (fst r) = alter (add_images (uploaded_images fs filenames)) branch (branches a)
  /\ snd r = upload_errors fs filenames
  /\ story_text (fst r) = story_text a /\ prompt_text (fst r) = prompt_text a
  /\ current_branch (fst r) = current_branch a
  /\ project_name_var (fst r) = project_name_var a
  /\ image_preview (fst r) = image_preview a.
Proof.
  cbv zeta. revert image_counter a.
  induction filenames as [|fname rest IH]; intros image_counter a.
  - cbn. repeat split. symmetry. apply list_alter_id, add_images_nil.
  - cbn [upload_loop]. unfold uploaded_images, upload_errors.
    cbn [omap list_omap]. rewrite filter_cons.
    fold (uploaded_images fs rest). unfold uploaded_image at 1.
    destruct (read_bytes fs fname) as [img_bytes|] eqn:E.
    + destruct (IH (S image_counter)
                  (attach_image branch_item branch fname img_bytes image_counter a))
        as (H1 & H2 & H3 & H4 & H5 & H6 & H7).
      destruct (attach_image_kept branch_item branch fname img_bytes image_counter a)
        as (K1 & K2 & K3 & K4).
      cbv zeta in *.
      rewrite H1, H2, H3, H4, H5, H6, H7, K1, K2, K3, K4, attach_image_preview.
      rewrite attach_image_branches, list_alter_alter_eq.
      rewrite decide_False by (rewrite bool_decide_eq_true_2 by eauto; simpl; auto).
      repeat split.
      apply list_alter_ext; [|reflexivity]. intros b _. apply add_images_append.
    + destruct (IH image_counter a) as (H1 & H2 & H3 & H4 & H5 & H6 & H7).
      destruct (upload_loop fs branch_item branch rest image_counter a) as [a' ms].
      cbn [fst snd] in *.
      rewrite decide_True
        by (rewrite bool_decide_eq_false_2 by (now intros [? ?]); exact I).
      cbn [map]. subst ms. repeat split; assumption.
Qed.

Lemma uploaded_split (fs : FileSystem) (filenames : list string) :
  length (uploaded_images fs filenames) + length (upload_errors fs filenames)
  = length filenames.
Proof.
  unfold uploaded_images, upload_errors. rewrite length_map.
  induction filenames as [|f fl IH]; [reflexivity|].
  cbn [omap list_omap]. rewrite filter_cons. unfold uploaded_image at 1.
  destruct (read_bytes fs f) as [data|] eqn:E.
  - rewrite decide_False by (rewrite bool_decide_eq_true_2 by eauto; simpl; auto).
    cbn. cbn in IH. lia.
  - rewrite decide_True
      by (rewrite bool_decide_eq_false_2 by (now intros [? ?]); exact I).
    cbn. cbn in IH. lia.
Qed.

(** X7. An upload that stays within the limit appends to the selected
    item's branch the images of the chosen files that can be read, in the
    order chosen, each with the bytes of its file, and shows one error for
    each file that cannot be read: a file that fails does not stop the
    others. Story, prompt box and current branch stay as they are. *)
Theorem upload_within_limit (fs : FileSystem) (a : App) (filenames : list string)
    (selected bi : nat) (b : BranchData) :
  _get_selected_item a = Some selected ->
  branch_of_item a (_get_branch_item_for (tree a) selected) = Some (bi, b) ->
  filenames <> [] ->
  length (images b) + length filenames <= 2 ->
  let r := upload_images filenames fs a in
  branches (fst r) = <[bi := add_images (uploaded_images fs filenames) b]> (branches a)
  /\ snd r = upload_errors fs filenames
  /\ length (uploaded_images fs filenames) + length (upload_errors fs filenames)
     = length filenames
  /\ Forall (fun img => read_bytes fs (original_path img) = Some (image_bytes img))
            (uploaded_images fs filenames)
  /\ story_text (fst r) = story_text a /\ prompt_text (fst r) = prompt_text a
  /\ current_branch (fst r) = current_branch a.
Proof.
  intros Hsel Hbr Hne Hlim. cbv zeta. unfold upload_images. rewrite Hsel, Hbr.
  destruct filenames as [|f fl]; [congruence|].
  apply Nat.ltb_ge in Hlim. rewrite Hlim.
  destruct (upload_loop_exact fs (_get_branch_item_for (tree a) selected) bi (f :: fl)
              (length (images b) + 1) a) as (H1 & H2 & H3 & H4 & H5 & _).
  destruct (upload_loop fs _ bi (f :: fl) _ a) as [a1 ms]. cbn [fst snd] in *.
  cbn [branches with_tree story_text prompt_text current_branch].
  rewrite H1, H2, H3, H4, H5. repeat split.
  - rewrite list_insert_alter. apply list_alter_ext; [|reflexivity].
    intros x Hx. apply branch_of_item_valid in Hbr. congruence.
  - apply uploaded_split.
  - unfold uploaded_images. generalize (f :: fl). intros l.
    induction l as [|x l IH]; [constructor|].
    cbn [omap list_omap]. unfold uploaded_image at 1.
    destruct (read_bytes fs x) eqn:E; [constructor; [exact E | exact IH] | exact IH].
Qed.

Lemma Forall2_alter_same {A} (R : A -> A -> Prop) (f : A -> A) (i : nat) (l : list A) :
  (forall x, R x x) -> (forall x, R x (f x)) -> Forall2 R l (alter f i l).
Proof.
  intros Hr Hf. revert i. induction l as [|x l IH]; intros i; [constructor|].
  destruct i; cbn; constructor; auto.
  clear IH. induction l; constructor; auto.
Qed.

(** X8. Whatever is selected and chosen, an upload only ever appends
    images: every branch keeps its name, its prompt, its stored image names
    and the images it had, in their places; story, prompt box, current
    branch and project name stay as they are. *)
Theorem upload_only_appends (filenames : list string) (fs : FileSystem) (a : App) :
  let a' := fst (upload_images filenames fs a) in
  Forall2 (fun b b' => name b' = name b /\ prompt b' = prompt b
                       /\ image_paths b' = image_paths b
                       /\ exists more, images b' = images b ++ more)
          (branches a) (branches a')
  /\ story_text a' = story_text a /\ prompt_text a' = prompt_text a
  /\ current_branch a' = current_branch a /\ project_name_var a' = project_name_var a.
Proof.
  cbv zeta.
  assert (Hsame : Forall2 (fun b b' => name b' = name b /\ prompt b' = prompt b
                       /\ image_paths b' = image_paths b
                       /\ exists more, images b' = images b ++ more)
          (branches a) (branches a)).
  { induction (branches a); constructor; auto.
    repeat split. exists []. now rewrite app_nil_r. }
  unfold upload_images.
  destruct (_get_selected_item a) as [selected|]; [|now repeat split].
  destruct (branch_of_item a _) as [[bi b]|]; [|now repeat split].
  destruct filenames as [|f fl]; [now repeat split|].
  destruct (2 <? _); [now repeat split|].
  destruct (upload_loop_exact fs (_get_branch_item_for (tree a) selected) bi (f :: fl)
              (length (images b) + 1) a) as (H1 & _ & H3 & H4 & H5 & H6 & _).
  destruct (upload_loop fs _ bi (f :: fl) _ a) as [a1 ms]. cbn [fst snd] in *.
  cbn [branches with_tree story_text prompt_text current_branch project_name_var].
  rewrite H1, H3, H4, H5, H6. repeat split.
  apply Forall2_alter_same.
  - intros x. repeat split. exists []. now rewrite app_nil_r.
  - intros x. cbn. repeat split. eauto.
Qed.

End UploadFacts.

(** ** More on the selection *)

Section MoreSelectionFacts.
Import PyStr Fs Model Handlers.
Context `{P : Platform}.

Lemma show_image_preview_rest (image_bytes : list byte) (a : App) :
  let a' := fst (_show_image_preview image_bytes a) in
  tree a' = tree a /\ story_text a' = story_text a
  /\ project_name_var a' = project_name_var a /\ image_refs a' = image_refs a.
Proof.
  unfold _show_image_preview, _create_thumbnail.
  destruct PIL_AVAILABLE, (image_decodes image_bytes); cbn; auto.
Qed.

Lemma persist_current_prompt_lookup (a : App) (bi : nat) (b : BranchData) :
  branches a !! bi = Some b ->
  exists b', branches (persist_current_prompt a) !! bi = Some b'
             /\ name b' = name b /\ images b' = images b
             /\ image_paths b' = image_paths b
             /\ (current_branch a <> Some bi -> b' = b)
             /\ (current_branch a = Some bi -> prompt b' = edited_prompt a).
Proof.
  intros Hb. unfold persist_current_prompt.
  destruct (current_branch a) as [cur|] eqn:E.
  - cbn. destruct (decide (cur = bi)) as [->|Hne].
    + exists (set_prompt (edited_prompt a) b).
      rewrite list_lookup_alter_eq, Hb. repeat split. congruence.
    + exists b. rewrite list_lookup_alter_ne by exact Hne.
      repeat split; [exact Hb | congruence].
  - exists b. repeat split; [exact Hb | discriminate].
Qed.

Lemma persist_current_prompt_select (t : Treeview) (a : App) :
  persist_current_prompt (with_tree t a) = with_tree t (persist_current_prompt a).
Proof.
  unfold persist_current_prompt, edited_prompt. cbn.
  destruct (current_branch a); reflexivity.
Qed.

(** The state in which the handler looks at the selected item: the prompt
    is stored and the current branch is the one the item belongs to. *)
Lemma on_tree_select_some (a : App) (selected : nat) :
  _get_selected_item a = Some selected ->
  let a1 := persist_current_prompt a in
  let a2 := match branch_of_item a1 (_get_branch_item_for (tree a) selected) with
            | Some (bi, b) => with_prompt_text (prompt b) (with_current_branch (Some bi) a1)
            | None => with_prompt_text "" (with_current_branch None a1)
            end in
  on_tree_select a
  = match match node_data a !! selected with
          | Some (ImageRef bi i) =>
              match branches a1 !! bi with
              | Some b => images b !! i
              | None => None
              end
          | _ => None
          end with
    | Some img => _show_image_preview (image_bytes img) a2
    | None => (with_image_preview None a2, [])
    end.
Proof.
  intros Hsel. cbv zeta.
  destruct (persist_current_prompt_fields a) as (Hnd & Htr & _).
  unfold on_tree_select.
  assert (Hsel' : _get_selected_item (persist_current_prompt a) = Some selected)
    by (unfold _get_selected_item; now rewrite Htr).
  rewrite Hsel'. cbv zeta. rewrite Htr.
  destruct (branch_of_item (persist_current_prompt a)
              (_get_branch_item_for (tree a) selected)) as [[bi b]|] eqn:Hbr.
  - apply branch_of_item_valid in Hbr as Hb.
    unfold update_prompt_text_from_branch, set_current_branch.
    cbn [branches with_current_branch]. rewrite Hb.
    cbn [node_data branches with_prompt_text with_current_branch]. rewrite Hnd.
    reflexivity.
  - cbn [node_data branches with_prompt_text with_current_branch]. rewrite Hnd.
    reflexivity.
Qed.

Lemma select_some (node : nat) (a : App) :
  let a1 := persist_current_prompt a in
  let a2 := match branch_of_item a1 (_get_branch_item_for (tree a) node) with
            | Some (bi, b) => with_prompt_text (prompt b) (with_current_branch (Some bi) a1)
            | None => with_prompt_text "" (with_current_branch None a1)
            end in
  let a3 := with_tree (mkTree (tv_items (tree a)) [node] (Some node) (tv_serial (tree a))) a2 in
  select (Some node) a
  = match match node_data a !! node with
          | Some (ImageRef bi i) =>
              match branches a1 !! bi with
              | Some b => images b !! i
              | None => None
              end
          | _ => None
          end with
    | Some img => _show_image_preview (image_bytes img) a3
    | None => (with_image_preview None a3, [])
    end.
Proof.
  cbv zeta. unfold select. cbv zeta.
  set (t := mkTree _ _ _ _).
  rewrite (on_tree_select_some (with_tree t a) node) by reflexivity.
  cbv zeta. rewrite persist_current_prompt_select.
  replace (_get_branch_item_for (tree (with_tree t a)) node)
    with (_get_branch_item_for (tree a) node)
    by (apply get_branch_item_for_items; reflexivity).
  replace (branch_of_item (with_tree t (persist_current_prompt a))
             (_get_branch_item_for (tree a) node))
    with (branch_of_item (persist_current_prompt a) (_get_branch_item_for (tree a) node))
    by reflexivity.
  cbn [node_data branches with_tree].
  destruct (branch_of_item (persist_current_prompt a) (_get_branch_item_for (tree a) node))
    as [[bi b]|]; reflexivity.
Qed.

(** What a selection leaves of the state in every case. *)
Lemma select_some_fields (node : nat) (a : App) :
  let a1 := persist_current_prompt a in
  let cur := branch_of_item a1 (_get_branch_item_for (tree a) node) in
  let a' := fst (select (Some node) a) in
  branches a' = branches a1
  /\ node_data a' = node_data a
  /\ tv_items (tree a') = tv_items (tree a)
  /\ story_text a' = story_text a
  /\ project_name_var a' = project_name_var a
  /\ current_branch a' = match cur with Some (bi, _) => Some bi | None => None end
  /\ prompt_text a' = match cur with Some (_, b) => prompt b | None => "" end.
Proof.
  cbv zeta. rewrite select_some. cbv zeta.
  destruct (persist_current_prompt_fields a) as (Hnd & Htr & _ & _ & Hst & Hpn & _).
  set (a3 := with_tree _ _).
  assert (H3 : branches a3 = branches (persist_current_prompt a)
               /\ node_data a3 = node_data a
               /\ tv_items (tree a3) = tv_items (tree a)
               /\ story_text a3 = story_text a
               /\ project_name_var a3 = project_name_var a
               /\ current_branch a3
                  = match branch_of_item (persist_current_prompt a)
                            (_get_branch_item_for (tree a) node) with
                    | Some (bi, _) => Some bi | None => None end
               /\ prompt_text a3
                  = match branch_of_item (persist_current_prompt a)
                            (_get_branch_item_for (tree a) node) with
                    | Some (_, b) => prompt b | None => "" end).
  { subst a3.
    destruct (branch_of_item (persist_current_prompt a)
                (_get_branch_item_for (tree a) node)) as [[bi b]|]; cbn;
      rewrite Hnd, Hst, Hpn; repeat split. }
  destruct H3 as (H1 & H2 & H4 & H5 & H6 & H7 & H8).
  match goal with
  | |- context [match ?o with Some img => _ | None => _ end] => destruct o as [img|]
  end.
  - destruct (show_image_preview_keeps (image_bytes img) a3) as (K1 & K2 & K3 & K4).
    destruct (show_image_preview_rest (image_bytes img) a3) as (K5 & K6 & K7 & _).
    cbv zeta in *. rewrite K1, K2, K3, K4, K5, K6, K7. repeat split; assumption.
  - cbn. repeat split; assumption.
Qed.

Lemma select_none (a : App) :
  select None a
  = (with_tree (mkTree (tv_items (tree a)) [] (tv_focus (tree a)) (tv_serial (tree a)))
       (persist_current_prompt a), []).
Proof.
  unfold select, on_tree_select. cbv zeta.
  rewrite persist_current_prompt_select. reflexivity.
Qed.

Lemma persist_current_prompt_maps (a : App) :
  map name (branches (persist_current_prompt a)) = map name (branches a)
  /\ map images (branches (persist_current_prompt a)) = map images (branches a)
  /\ map image_paths (branches (persist_current_prompt a)) = map image_paths (branches a)
  /\ (forall bi, current_branch a <> Some bi ->
        branches (persist_current_prompt a) !! bi = branches a !! bi).
Proof.
  unfold persist_current_prompt. destruct (current_branch a) as [cur|]; [|auto].
  cbn. split; [|split; [|split]].
  1-3: generalize (branches a); intros l; revert cur;
       induction l as [|b l IH]; intros [|cur]; cbn; try reflexivity;
       now rewrite IH.
  intros bi Hne. apply list_lookup_alter_ne. congruence.
Qed.

(** X9. The preview follows the selection. Selecting the item of a branch
    clears the preview. Selecting the item of an image shows that image's
    bytes when they decode; when they do not, the preview that was there
    stays on the screen, with an "Image Error" box if Pillow is there and
    silently if not. *)
Theorem select_preview (node : nat) (a : App) :
  let r := select (Some node) a in
  (forall bi, node_data a !! node = Some (BranchRef bi) ->
     image_preview (fst r) = None /\ snd r = [])
  /\ (forall bi i b img,
        node_data a !! node = Some (ImageRef bi i) ->
        branches a !! bi = Some b -> images b !! i = Some img ->
        if image_decodes (image_bytes img)
        then image_preview (fst r)
             = Some (mkPhoto (image_bytes img)
                             (if PIL_AVAILABLE then Some (400, 300) else None))
             /\ snd r = []
        else image_preview (fst r) = image_preview a
             /\ snd r = if PIL_AVAILABLE then [ImageError] else []).
Proof.
  cbv zeta. rewrite select_some. cbv zeta. split.
  - intros bi E. rewrite E. split; reflexivity.
  - intros bi i b img E Hb Hi. rewrite E.
    destruct (persist_current_prompt_lookup a bi b Hb) as (b' & Hb' & _ & Himg & _).
    rewrite Hb', Himg, Hi.
    assert (Hpv : image_preview (persist_current_prompt a) = image_preview a)
      by (unfold persist_current_prompt; destruct (current_branch a); reflexivity).
    unfold _show_image_preview, _create_thumbnail.
    destruct PIL_AVAILABLE, (image_decodes (image_bytes img)); cbn;
      (split; [|reflexivity]); try reflexivity;
      destruct (branch_of_item (persist_current_prompt a)
                  (_get_branch_item_for (tree a) node)) as [[? ?]|]; cbn; exact Hpv.
Qed.

(** X10. A selection changes nothing of a project but the prompt of the
    branch that was current: all branches keep their names, their images
    and their stored image names, every other branch stays as it is, and
    so do the tree items, the node mapping, the story and the project
    name. *)
Theorem select_keeps_project (node : option nat) (a : App) :
  let a' := fst (select node a) in
  map name (branches a') = map name (branches a)
  /\ map images (branches a') = map images (branches a)
  /\ map image_paths (branches a') = map image_paths (branches a)
  /\ (forall bi, current_branch a <> Some bi -> branches a' !! bi = branches a !! bi)
  /\ tv_items (tree a') = tv_items (tree a) /\ node_data a' = node_data a
  /\ story_text a' = story_text a /\ project_name_var a' = project_name_var a.
Proof.
  cbv zeta.
  destruct (persist_current_prompt_maps a) as (M1 & M2 & M3 & M4).
  destruct (persist_current_prompt_fields a) as (Hnd & Htr & _ & _ & Hst & Hpn & _).
  destruct node as [node|].
  - destruct (select_some_fields node a) as (S1 & S2 & S3 & S4 & S5 & _).
    cbv zeta in *. rewrite S1, S2, S3, S4, S5. repeat split; assumption.
  - rewrite select_none. cbn. rewrite Hnd, Hst, Hpn. repeat split; assumption.
Qed.

(** X11. What is typed into the prompt box survives going to another item
    and back: with branch [ia] current, typing [typed], selecting an item
    of branch [ib] and then an item of branch [ia] again shows [typed]
    without the newlines at its end, and that is the prompt branch [ia]
    has stored. *)
Theorem typed_prompt_survives_round_trip (a : App) (typed : string)
    (node_a node_b ia ib : nat) :
  current_branch a = Some ia ->
  ia < length (branches a) -> ib < length (branches a) ->
  node_data a !! _get_branch_item_for (tree a) node_a = Some (BranchRef ia) ->
  node_data a !! _get_branch_item_for (tree a) node_b = Some (BranchRef ib) ->
  let away := fst (select (Some node_b) (with_prompt_text typed a)) in
  let back := fst (select (Some node_a) away) in
  prompt_text back = rstrip_nl typed
  /\ current_branch back = Some ia
  /\ exists b, branches back !! ia = Some b /\ prompt b = rstrip_nl typed.
Proof.
  intros Hcur Hia Hib Hna Hnb. cbv zeta.
  assert (Hedit : forall s, rstrip_nl (text_get s) = rstrip_nl s).
  { intros s. unfold rstrip_nl, text_get. apply rstrip_by_snoc, Ascii.eqb_refl. }
  set (a1 := with_prompt_text typed a).
  assert (Hbs1 : branches (persist_current_prompt a1)
                 = alter (set_prompt (rstrip_nl typed)) ia (branches a)).
  { unfold persist_current_prompt.
    replace (current_branch a1) with (current_branch a) by reflexivity.
    rewrite Hcur. unfold edited_prompt. rewrite Hedit. reflexivity. }
  destruct (lookup_lt_is_Some_2 (branches a) ib Hib) as [bb Hbb].
  destruct (lookup_lt_is_Some_2 (branches a) ia Hia) as [ba Hba].
  set (bb1 := if decide (ia = ib) then set_prompt (rstrip_nl typed) bb else bb).
  assert (Hlook1 : branches (persist_current_prompt a1) !! ib = Some bb1).
  { rewrite Hbs1. subst bb1. destruct (decide (ia = ib)) as [->|Hne].
    - now rewrite list_lookup_alter_eq, Hbb.
    - now rewrite list_lookup_alter_ne. }
  destruct (persist_current_prompt_fields a1) as (Hnd1 & _).
  assert (Hboi1 : branch_of_item (persist_current_prompt a1)
                    (_get_branch_item_for (tree a1) node_b) = Some (ib, bb1)).
  { unfold branch_of_item. rewrite Hnd1.
    replace (node_data a1) with (node_data a) by reflexivity.
    replace (tree a1) with (tree a) by reflexivity. now rewrite Hnb, Hlook1. }
  destruct (select_some_fields node_b a1) as (W1 & W2 & W3 & _ & _ & W6 & W7).
  cbv zeta in W1, W2, W3, W6, W7. rewrite Hboi1 in W6, W7. rewrite Hbs1 in W1.
  change (node_data a1) with (node_data a) in W2.
  set (away := fst (select (Some node_b) a1)) in *.
  assert (Hroot : _get_branch_item_for (tree away) node_a
                  = _get_branch_item_for (tree a) node_a)
    by (apply get_branch_item_for_items; exact W3).
  assert (Hlka : branches away !! ia = Some (set_prompt (rstrip_nl typed) ba))
    by (now rewrite W1, list_lookup_alter_eq, Hba).
  destruct (persist_current_prompt_lookup away ia _ Hlka)
    as (ba' & Hba' & _ & _ & _ & Hother & Hsame).
  assert (Hpa' : prompt ba' = rstrip_nl typed).
  { destruct (decide (ib = ia)) as [->|Hne].
    - rewrite (Hsame W6). unfold edited_prompt. rewrite Hedit, W7.
      subst bb1. rewrite decide_True by reflexivity. cbn.
      unfold rstrip_nl. apply rstrip_by_idem.
    - rewrite Hother by congruence. reflexivity. }
  destruct (persist_current_prompt_fields away) as (Hnd2 & _).
  assert (Hboi2 : branch_of_item (persist_current_prompt away)
                    (_get_branch_item_for (tree away) node_a) = Some (ia, ba')).
  { unfold branch_of_item. now rewrite Hnd2, Hroot, W2, Hna, Hba'. }
  destruct (select_some_fields node_a away) as (B1 & _ & _ & _ & _ & B6 & B7).
  cbv zeta in B1, B6, B7. rewrite Hboi2 in B6, B7.
  split; [now rewrite B7|]. split; [exact B6|].
  exists ba'. split; [now rewrite B1 | exact Hpa'].
Qed.

End MoreSelectionFacts.

(** ** The tree and the references of a session *)

Section ShapeFacts.
Import PyStr Fs Model Handlers Persistence Session Shape.
Context `{P : Platform}.












(** The application after [save_project]: the prompt is stored, the entry
    holds the dialog's answer when the name was asked for, and the stored
    image names are replaced when the copy loop has run. *)
Lemma save_project_result (answer : option string) (fs : FileSystem) (a : App) :
  exists (a2 : App) (names : BranchData -> list string),
    (a2 = persist_current_prompt a
     \/ exists asked, answer = Some asked
                      /\ a2 = with_project_name_var asked (persist_current_prompt a))
    /\ (fst (fst (save_project answer fs a)) = a2
        \/ fst (fst (save_project answer fs a))
           = with_branches (map (fun b => set_image_paths (names b) b) (branches a2)) a2).
Proof.
  unfold save_project.
  destruct (resolve_project_name answer (persist_current_prompt a)) as [[pn a2]|] eqn:Hn.
  2:{ exists (persist_current_prompt a), (fun _ => []). split; [now left | now left]. }
  assert (H2 : a2 = persist_current_prompt a
               \/ exists asked, answer = Some asked
                                /\ a2 = with_project_name_var asked (persist_current_prompt a)).
  { revert Hn. unfold resolve_project_name.
    destruct (is_empty (strip _)).
    - destruct answer as [asked|]; [|discriminate].
      destruct (is_empty asked); [discriminate|]. intros [= <- <-]. eauto.
    - intros [= <- <-]. now left. }
  exists a2, (Outcome.copied_names
                (default fs (makedirs fs (OsPath.join2 _desktop_scanner_folder pn)))
                (OsPath.join2 _desktop_scanner_folder pn)).
  split; [exact H2|].
  destruct (exists_ fs _); [now left|].
  destruct (makedirs fs _) as [fs1|]; [|now left].
  match goal with
  | |- context [save_branches ?pp ?bs ?f] =>
      destruct (save_branches_outcome pp f bs f (grown_refl _ _)) as (_ & Hbs & _);
      destruct (save_branches pp bs f) as [[fs2 bs'] ws]
  end.
  cbn [fst snd] in Hbs. subst bs'. cbn [default].
  destruct (write_bytes fs2 _ _); now right.
Qed.















End ShapeFacts.

(** ** More on saving *)

Section MoreSaveFacts.
Import PyStr Fs Model Handlers Persistence Outcome.
Context `{P : Platform}.

Lemma makedirs_made (fs : FileSystem) (p : string) (fs1 : FileSystem) :
  exists_ fs p = false -> makedirs fs p = Some fs1 ->
  files fs1 = files fs /\ dirs fs1 = {[p]} ∪ dirs fs
  /\ unreadable fs1 = unreadable fs /\ unwritable fs1 = unwritable fs.
Proof.
  unfold exists_, makedirs. intros Hex. apply bool_decide_eq_false in Hex.
  destruct (decide (p ∈ dirs fs)) as [Hin|_]; [destruct Hex; now right|].
  destruct (decide _); [discriminate|]. intros [= <-]. repeat split.
Qed.

(** The file system a save leaves, when it could make its directory *)
Lemma save_project_disk (answer : option string) (fs : FileSystem) (a : App)
    (project_name : string) (a2 : App) (fs1 : FileSystem) :
  resolve_project_name answer (persist_current_prompt a) = Some (project_name, a2) ->
  let project_path := OsPath.join2 _desktop_scanner_folder project_name in
  exists_ fs project_path = false ->
  makedirs fs project_path = Some fs1 ->
  let fs' := snd (fst (save_project answer fs a)) in
  dirs fs' = {[project_path]} ∪ dirs fs
  /\ unreadable fs' = unreadable fs /\ unwritable fs' = unwritable fs
  /\ forall p : string,
       (forall n, OsPath.no_sep n = true -> p <> OsPath.join2 project_path n) ->
       files fs' !! p = files fs !! p.
Proof.
  intros Hname project_path Hex Hmk. cbv zeta.
  destruct (makedirs_made fs project_path fs1 Hex Hmk) as (M1 & M2 & M3 & M4).
  destruct (save_project_outcome answer fs a project_name a2 fs1 Hname Hex Hmk)
    as (fs2 & (G1 & G2 & G3 & G4) & Hsave).
  fold project_path in Hsave. rewrite Hsave.
  destruct (writable fs1 _); cbn [fst snd dirs unreadable unwritable files];
    rewrite G1, G2, G3, M2, M3, M4; repeat split; intros p Hp.
  - rewrite lookup_insert_ne; [rewrite (G4 p Hp); now rewrite M1|].
    intros <-. now apply (Hp "project.json").
  - rewrite (G4 p Hp). now rewrite M1.
Qed.


Lemma persist_current_prompt_fixed (a : App) :
  (forall cur b, current_branch a = Some cur -> branches a !! cur = Some b ->
     prompt b = edited_prompt a) ->
  persist_current_prompt a = a.
Proof.
  intros H. unfold persist_current_prompt.
  destruct (current_branch a) as [cur|] eqn:Hc; [|reflexivity].
  replace (alter (set_prompt (edited_prompt a)) cur (branches a)) with (branches a);
    [destruct a; reflexivity|].
  apply list_eq. intros i. destruct (decide (cur = i)) as [<-|Hne].
  - rewrite list_lookup_alter_eq. destruct (branches a !! cur) as [b|] eqn:Hb; [|reflexivity].
    cbn. rewrite <- (H cur b eq_refl Hb). now destruct b.
  - now rewrite list_lookup_alter_ne.
Qed.

(** X15. A project is saved once under a name. After a save that made its
    directory (whether or not the copies and the manifest went through),
    saving again refuses with "Project already exists" and leaves the disk
    and the application as they are; this holds when the name came from the
    entry, and for a name typed into the dialog when it has no blanks
    around it (the entry is read stripped, the dialog's answer is not). *)
Theorem save_again_refused (answer answer' : option string) (fs : FileSystem) (a : App)
    (project_name : string) (a2 : App) (fs1 : FileSystem) :
  resolve_project_name answer (persist_current_prompt a) = Some (project_name, a2) ->
  let project_path := OsPath.join2 _desktop_scanner_folder project_name in
  exists_ fs project_path = false ->
  makedirs fs project_path = Some fs1 ->
  is_empty (strip (project_name_var a)) = false \/ strip project_name = project_name ->
  let r := save_project answer fs a in
  save_project answer' (snd (fst r)) (fst (fst r))
  = (fst (fst r), snd (fst r), [SaveErrorExists]).
Proof.
  intros Hname project_path Hex Hmk Hstrip. cbv zeta.
  destruct (save_project_disk answer fs a project_name a2 fs1 Hname Hex Hmk) as (D1 & _).
  fold project_path in D1. cbv zeta in D1.
  destruct (save_project_outcome answer fs a project_name a2 fs1 Hname Hex Hmk)
    as (fs2 & _ & Hsave).
  fold project_path in Hsave.
  set (bs := map _ (branches a2)) in Hsave.
  assert (Ha' : fst (fst (save_project answer fs a)) = with_branches bs a2)
    by (rewrite Hsave; now destruct (writable fs1 _)).
  rewrite Ha'. set (fs' := snd (fst (save_project answer fs a))) in *.
  destruct (persist_current_prompt_fields a) as (_ & _ & F3 & F4 & _ & F6 & _).
  (* the state after the first resolution *)
  assert (H2 : current_branch a2 = current_branch a /\ prompt_text a2 = prompt_text a
               /\ branches a2 = branches (persist_current_prompt a)
               /\ strip (project_name_var a2) = project_name).
  { revert Hname. unfold resolve_project_name. rewrite F6.
    destruct (is_empty (strip (project_name_var a))) eqn:E.
    - destruct answer as [asked|]; [|discriminate].
      destruct (is_empty asked); [discriminate|]. intros [= <- <-]. cbn.
      destruct Hstrip as [Hs|Hs]; [discriminate|]. rewrite F3, F4. auto.
    - intros [= <- <-]. rewrite F3, F4, F6. auto. }
  destruct H2 as (C2 & T2 & B2 & N2).
  assert (Hne : is_empty project_name = false)
    by (apply (resolve_project_name_kept answer _ _ a2 Hname)).
  assert (Hfix : persist_current_prompt (with_branches bs a2) = with_branches bs a2).
  { apply persist_current_prompt_fixed. intros cur b Hc Hb.
    cbn in Hc, Hb. unfold edited_prompt. cbn [prompt_text with_branches].
    rewrite T2. fold (edited_prompt a).
    subst bs. rewrite list_lookup_fmap, B2 in Hb.
    unfold persist_current_prompt in Hb. rewrite C2 in Hc. rewrite Hc in Hb. cbn in Hb.
    rewrite list_lookup_alter_eq in Hb.
    destruct (branches a !! cur); cbn in Hb; inversion Hb. reflexivity. }
  unfold save_project. rewrite Hfix.
  assert (Hres : resolve_project_name answer' (with_branches bs a2)
                 = Some (project_name, with_branches bs a2)).
  { unfold resolve_project_name. cbn [project_name_var with_branches].
    rewrite N2, Hne. reflexivity. }
  rewrite Hres. fold project_path.
  assert (Hex' : exists_ fs' project_path = true).
  { unfold exists_. apply bool_decide_eq_true. right. rewrite D1.
    apply elem_of_union_l, elem_of_singleton. reflexivity. }
  now rewrite Hex'.
Qed.

(** X16. A save leaves the project in memory as it is, the stored image
    names apart: tree, node mapping, current branch, story, prompt box,
    thumbnails and preview are unchanged, the branches keep their names and
    images, their prompts are those after the store of the prompt box, and
    the project name entry changes only to the name typed into the
    dialog. *)
Theorem save_keeps_project (answer : option string) (fs : FileSystem) (a : App) :
  let a' := fst (fst (save_project answer fs a)) in
  tree a' = tree a /\ node_data a' = node_data a
  /\ current_branch a' = current_branch a
  /\ story_text a' = story_text a /\ prompt_text a' = prompt_text a
  /\ image_refs a' = image_refs a /\ image_preview a' = image_preview a
  /\ map name (branches a') = map name (branches a)
  /\ map images (branches a') = map images (branches a)
  /\ map prompt (branches a') = map prompt (branches (persist_current_prompt a))
  /\ (project_name_var a' = project_name_var a
      \/ answer = Some (project_name_var a')).
Proof.
  cbv zeta.
  destruct (persist_current_prompt_fields a) as (F1 & F2 & F3 & F4 & F5 & F6 & _).
  destruct (persist_current_prompt_maps a) as (M1 & M2 & _).
  assert (F7 : image_refs (persist_current_prompt a) = image_refs a
               /\ image_preview (persist_current_prompt a) = image_preview a)
    by (unfold persist_current_prompt; destruct (current_branch a); auto).
  destruct F7 as (F7 & F8).
  destruct (save_project_result answer fs a) as (a2 & names & H2 & Hres).
  assert (K : tree a2 = tree a /\ node_data a2 = node_data a
              /\ current_branch a2 = current_branch a
              /\ story_text a2 = story_text a /\ prompt_text a2 = prompt_text a
              /\ image_refs a2 = image_refs a /\ image_preview a2 = image_preview a
              /\ branches a2 = branches (persist_current_prompt a)
              /\ (project_name_var a2 = project_name_var a
                  \/ answer = Some (project_name_var a2))).
  { destruct H2 as [-> | (asked & -> & ->)]; cbn;
      rewrite ?F1, ?F2, ?F3, ?F4, ?F5, ?F7, ?F8; repeat split; auto. }
  destruct K as (K1 & K2 & K3 & K4 & K5 & K6 & K7 & K8 & K9).
  destruct Hres as [-> | ->].
  - rewrite K8. repeat split; assumption.
  - cbn. rewrite !map_map. cbn.
    change (map (fun x => name x) (branches a2)) with (map name (branches a2)).
    change (map (fun x => images x) (branches a2)) with (map images (branches a2)).
    change (map (fun x => prompt x) (branches a2)) with (map prompt (branches a2)).
    rewrite K8. repeat split; assumption.
Qed.

Lemma copy_images_app (project_path : string) (l1 l2 : list ImageData) (fs : FileSystem) :
  fst (fst (copy_images project_path (l1 ++ l2) fs))
  = fst (fst (copy_images project_path l2 (fst (fst (copy_images project_path l1 fs))))).
Proof.
  revert fs. induction l1 as [|img rest IH]; intros fs; [reflexivity|].
  cbn [app copy_images].
  destruct (copy2 fs _ _) as [fs1|].
  - specialize (IH fs1).
    destruct (copy_images project_path (rest ++ l2) fs1) as [[? ?] ?].
    destruct (copy_images project_path rest fs1) as [[? ?] ?]. exact IH.
  - specialize (IH fs).
    destruct (copy_images project_path (rest ++ l2) fs) as [[? ?] ?].
    destruct (copy_images project_path rest fs) as [[? ?] ?]. exact IH.
Qed.

Lemma save_branches_files (project_path : string) (bs : list BranchData) (fs : FileSystem) :
  fst (fst (save_branches project_path bs fs))
  = fst (fst (copy_images project_path (flat_map images bs) fs)).
Proof.
  revert fs. induction bs as [|b rest IH]; intros fs; [reflexivity|].
  cbn [save_branches flat_map]. rewrite copy_images_app.
  destruct (copy_images project_path (images b) fs) as [[fs1 names] ms1].
  specialize (IH fs1).
  destruct (save_branches project_path rest fs1) as [[fs2 rest'] ms2]. exact IH.
Qed.

Lemma copy_images_keeps (project_path : string) (fs1 : FileSystem)
    (imgs : list ImageData) (fs : FileSystem) (dst : string) :
  grown project_path fs1 fs ->
  Forall (fun other => destination project_path other = dst ->
                       copies fs1 project_path other = false) imgs ->
  files (fst (fst (copy_images project_path imgs fs))) !! dst = files fs !! dst.
Proof.
  revert fs. induction imgs as [|img rest IH]; intros fs Hg Hall; [reflexivity|].
  inversion Hall as [|? ? Himg Hrest]; subst.
  cbn [copy_images].
  destruct (copy2_grown project_path fs1 fs img Hg) as [(Hc & fs' & Hcopy & Hg')|(Hc & Hcopy)];
    unfold destination in Hcopy; rewrite Hcopy.
  - specialize (IH fs' Hg' Hrest).
    destruct (copy_images project_path rest fs') as [[fs2 names] ms]. cbn [fst] in *.
    rewrite IH. revert Hcopy. unfold copy2.
    destruct (decide _); [discriminate|].
    destruct (read_bytes fs _); [|discriminate].
    unfold write_bytes. destruct (writable fs _); [|discriminate].
    intros [= <-]. cbn. apply lookup_insert_ne. intros Hd.
    unfold destination in Himg. rewrite (Himg Hd) in Hc. discriminate.
  - specialize (IH fs Hg Hrest).
    destruct (copy_images project_path rest fs) as [[fs2 names] ms]. exact IH.
Qed.

Lemma copy2_content (project_path : string) (fs1 fs : FileSystem) (img : ImageData)
    (fs' : FileSystem) :
  grown project_path fs1 fs ->
  copy2 fs (original_path img) (destination project_path img) = Some fs' ->
  exists data, read_bytes fs1 (original_path img) = Some data
               /\ files fs' !! destination project_path img = Some data.
Proof.
  intros Hg. pose proof Hg as (Hd & Hr & Hw & Hf). unfold copy2.
  destruct (decide (original_path img = destination project_path img)) as [|Hne];
    [discriminate|].
  assert (Hread : read_bytes fs (original_path img) = read_bytes fs1 (original_path img)).
  { unfold read_bytes. rewrite Hr.
    destruct (decide (original_path img ∈ unreadable fs1)) as [Hu|Hu]; [reflexivity|].
    apply Hf. intros n Hn Hsrc. apply Hne. unfold destination.
    rewrite Hsrc at 2. now rewrite (basename_join2 _ _ Hn). }
  rewrite Hread. destruct (read_bytes fs1 (original_path img)) as [data|]; [|discriminate].
  unfold write_bytes. destruct (writable fs _); [|discriminate].
  intros [= <-]. exists data. split; [reflexivity|]. cbn. apply lookup_insert_eq.
Qed.

(** X17. Images are stored in the project under their base names, so two
    images of the same base name share one file: after a save that made
    its directory, the file of an image that was copied holds the bytes of
    the last image copied to that name, in the order of the branches and of
    their images; what an earlier image of that name had put there is
    overwritten. (The manifest goes to project.json, whatever an image of
    that name had put there.) *)
Theorem save_same_name_last_wins (answer : option string) (fs : FileSystem) (a : App)
    (project_name : string) (a2 : App) (fs1 : FileSystem)
    (before after : list ImageData) (img : ImageData) :
  resolve_project_name answer (persist_current_prompt a) = Some (project_name, a2) ->
  let project_path := OsPath.join2 _desktop_scanner_folder project_name in
  exists_ fs project_path = false ->
  makedirs fs project_path = Some fs1 ->
  flat_map images (branches a2) = before ++ img :: after ->
  copies fs1 project_path img = true ->
  Forall (fun other => destination project_path other = destination project_path img ->
                       copies fs1 project_path other = false) after ->
  destination project_path img <> OsPath.join2 project_path "project.json" ->
  exists data,
    read_bytes fs (original_path img) = Some data
    /\ files (snd (fst (save_project answer fs a))) !! destination project_path img
       = Some data.
Proof.
  intros Hname project_path Hex Hmk Hall Hc Hafter Hnj.
  unfold save_project. rewrite Hname. fold project_path. rewrite Hex, Hmk.
  pose proof (save_branches_files project_path (branches a2) fs1) as Hfiles.
  destruct (save_branches project_path (branches a2) fs1) as [[fs2 bs] ws].
  cbn [fst] in Hfiles. rewrite Hall, copy_images_app in Hfiles.
  destruct (copy_images_outcome project_path fs1 before fs1 (grown_refl _ _)) as (Hg & _).
  set (fsb := fst (fst (copy_images project_path before fs1))) in *.
  cbn [copy_images] in Hfiles.
  destruct (copy2_grown project_path fs1 fsb img Hg) as [(_ & fs' & Hcopy & Hg')|(Hc' & _)];
    [|congruence].
  destruct (copy2_content project_path fs1 fsb img fs' Hg Hcopy) as (data & Hread & Hdst).
  unfold destination in Hcopy. rewrite Hcopy in Hfiles.
  pose proof (copy_images_keeps project_path fs1 after fs' _ Hg' Hafter) as Hkeep.
  destruct (copy_images project_path after fs') as [[fs3 names] ms].
  cbn [fst] in *. subst fs2.
  exists data. split; [now rewrite <- (makedirs_reads _ _ _ Hmk)|].
  unfold write_bytes. destruct (writable fs3 _); cbn [fst snd files].
  - rewrite lookup_insert_ne by (intros E; apply Hnj; now symmetry).
    now rewrite Hkeep.
  - now rewrite Hkeep.
Qed.

End MoreSaveFacts.

(** ** More on loading *)

Section MoreLoadFacts.
Import PyStr Fs Model Handlers Persistence Outcome Shape.
Context `{P : Platform}.













End MoreLoadFacts.

(** ** What is typed and not stored *)

Section MoreSessionFacts.
Import PyStr Fs Model Handlers Persistence Session Shape.
Context `{P : Platform}.




End MoreSessionFacts.

(** ** The further properties on the sample data *)

Section MoreSamples.
Import PyStr Fs Model Handlers Formatter Persistence Outcome Session Examples Quantities Shape.

#[local] Abbreviation CJ := CompactJson.platform.
#[local] Abbreviation TF := AsciiText.text_files.

Lemma quantities_box_after_read_witness :
  refresh_quantities (P := CJ) (T := TF) disk_quantities
  = (_format_csv_like_text "bolt, 4", []).
Proof.
  apply (proj1 (quantities_box_after_read (P := CJ) (T := TF))).
  vm_compute. reflexivity.
Defined.

Lemma click_then_stored_prompt_witness :
  edited_prompt (on_quantities_click 0 "bolt           4              " two_branches)
  = "edited" +:+ "bolt           4".
Proof.
  apply (proj1 (click_then_stored_prompt 0 "bolt           4              " two_branches)).
  vm_compute. reflexivity.
Defined.

Lemma upload_within_limit_witness :
  map (fun b => map original_path (images b))
      (branches (fst (upload_images (P := CJ) ["/img/a.png"; "/missing.png"] disk
                        (add_branch (Some "Branch 1") 0 init))))
  = [["/img/a.png"]]
  /\ snd (upload_images (P := CJ) ["/img/a.png"; "/missing.png"] disk
            (add_branch (Some "Branch 1") 0 init))
     = [ImageReadError "/missing.png"].
Proof.
  destruct (upload_within_limit (P := CJ) disk (add_branch (Some "Branch 1") 0 init)
              ["/img/a.png"; "/missing.png"] 0 0
              (mkBranch "Branch 1" (choice 0 random_prompts) [] []))
    as (Hb & Hm & _).
  - reflexivity.
  - vm_compute. reflexivity.
  - discriminate.
  - vm_compute. lia.
  - rewrite Hb, Hm. vm_compute. split; reflexivity.
Defined.

Lemma select_preview_witness :
  image_preview (fst (select (P := CJ) (Some 1) two_images))
  = Some (mkPhoto [x01; x02] (Some (400, 300))).
Proof.
  apply (proj2 (select_preview (P := CJ) 1 two_images) 0 0
           (mkBranch "Branch 1" (choice 0 random_prompts) []
              [mkImage "/img/a.png" [x01; x02] (Some (mkPhoto [x01; x02] (Some (24, 24))));
               mkImage "/img/b.png" [x03] (Some (mkPhoto [x03] (Some (24, 24))))])
           (mkImage "/img/a.png" [x01; x02] (Some (mkPhoto [x01; x02] (Some (24, 24)))))).
  - vm_compute. reflexivity.
  - vm_compute. reflexivity.
  - reflexivity.
Defined.

Lemma typed_prompt_survives_round_trip_witness :
  prompt_text
    (fst (select (P := CJ) (Some 1)
            (fst (select (P := CJ) (Some 0) (with_prompt_text "my own words" two_branches)))))
  = "my own words".
Proof.
  apply (typed_prompt_survives_round_trip (P := CJ) two_branches "my own words" 1 0 1 0).
  - reflexivity.
  - vm_compute. lia.
  - vm_compute. lia.
  - vm_compute. reflexivity.
  - vm_compute. reflexivity.
Defined.


Lemma save_again_refused_witness :
  snd (save_project (P := CJ) None
         (snd (fst (save_project (P := CJ) (Some "tale") disk two_images)))
         (fst (fst (save_project (P := CJ) (Some "tale") disk two_images))))
  = [SaveErrorExists].
Proof.
  rewrite (save_again_refused (P := CJ) (Some "tale") None disk two_images "tale"
             (with_project_name_var "tale" (persist_current_prompt two_images))
             (mkFs (files disk) ({["/home/user/Desktop/Scanner/tale"]} ∪ dirs disk)
                   (unreadable disk) (unwritable disk))).
  - reflexivity.
  - reflexivity.
  - vm_compute. reflexivity.
  - vm_compute. reflexivity.
  - right. reflexivity.
Defined.



Lemma save_same_name_last_wins_witness :
  files (snd (fst (save_project (P := CJ) (Some "tale") disk_twins twins)))
    !! "/home/user/Desktop/Scanner/tale/a.png"
  = Some [x03].
Proof.
  destruct (save_same_name_last_wins (P := CJ) (Some "tale") disk_twins twins "tale"
              (with_project_name_var "tale" (persist_current_prompt twins))
              (mkFs (files disk_twins)
                    ({["/home/user/Desktop/Scanner/tale"]} ∪ dirs disk_twins)
                    (unreadable disk_twins) (unwritable disk_twins))
              [mkImage "/img/a.png" [x01; x02] (Some (mkPhoto [x01; x02] (Some (24, 24))))]
              []
              (mkImage "/other/a.png" [x03] (Some (mkPhoto [x03] (Some (24, 24))))))
    as (data & Hread & Hfile).
  - reflexivity.
  - vm_compute. reflexivity.
  - vm_compute. reflexivity.
  - vm_compute. reflexivity.
  - vm_compute. reflexivity.
  - constructor.
  - vm_compute. discriminate.
  - assert (Hd : data = [x03]) by (vm_compute in Hread; congruence).
    rewrite Hd in Hfile. exact Hfile.
Defined.


End MoreSamples.
